(** * The quiz application of [src/app.py]: session state machine and scoring

    [app.py] is a Streamlit script.  Streamlit executes [main()] from top to
    bottom once per user interaction; the only data surviving from one
    execution to the next is [st.session_state].  The embedding below follows
    that shape: one execution of [main] is a computation in a small monad
    [Script] that threads the session state and the list of things written to
    the page, and that can stop early with [st.rerun()] or with an uncaught
    Python exception.  Everything an execution reads from outside (widget
    values, the pressed button, the database, the language model) is gathered
    in a record [run_input]. *)

From Stdlib Require Import String Ascii List ZArith Lia Bool.
From Stdlib Require Import PrimFloat Uint63.
Import ListNotations.

Local Open Scope string_scope.
Local Open Scope list_scope.
Local Open Scope Z_scope.

(** ** Python values *)

(** [str.isspace] on one character.  A character is a code point; [ascii]
    covers U+0000 to U+00FF, where Python counts as whitespace the code points
    9 to 13, 28 to 32, 133 and 160. *)
Definition isspace (c : ascii) : bool :=
  let n := nat_of_ascii c in
  ((9 <=? n)%nat && (n <=? 13)%nat)
  || ((28 <=? n)%nat && (n <=? 32)%nat)
  || (n =? 133)%nat || (n =? 160)%nat.

Fixpoint lstrip (s : string) : string :=
  match s with
  | EmptyString => EmptyString
  | String c s' => if isspace c then lstrip s' else s
  end.

Fixpoint rstrip (s : string) : string :=
  match s with
  | EmptyString => EmptyString
  | String c s' =>
      match rstrip s' with
      | EmptyString => if isspace c then EmptyString else String c EmptyString
      | r => String c r
      end
  end.

(** [s.strip()] *)
Definition strip (s : string) : string := rstrip (lstrip s).

(** Truth value of a [str] and of a [list] in a Python condition. *)
Definition truthy_str (s : string) : bool :=
  match s with EmptyString => false | String _ _ => true end.

Definition truthy_list {A : Type} (l : list A) : bool :=
  match l with [] => false | _ :: _ => true end.

(** [len(l)] as a Python integer. *)
Definition len {A : Type} (l : list A) : Z := Z.of_nat (length l).

(** [l[i]] for a Python integer [i]: negative indices count from the end,
    anything else out of range is an [IndexError] ([None] here). *)
Definition getitem {A : Type} (l : list A) (i : Z) : option A :=
  if (0 <=? i) && (i <? len l) then nth_error l (Z.to_nat i)
  else if (- len l <=? i) && (i <? 0) then nth_error l (Z.to_nat (len l + i))
  else None.

(** A [dict] with [str] keys, in insertion order: [d[k] = v] overwrites the
    value of a key already present and keeps its position. *)
Fixpoint dict_set {V : Type} (d : list (string * V)) (k : string) (v : V)
  : list (string * V) :=
  match d with
  | [] => [(k, v)]
  | (k', v') :: d' =>
      if String.eqb k' k then (k', v) :: d' else (k', v') :: dict_set d' k v
  end.

Fixpoint dict_get {V : Type} (d : list (string * V)) (k : string) : option V :=
  match d with
  | [] => None
  | (k', v') :: d' => if String.eqb k' k then Some v' else dict_get d' k
  end.

Definition dict_keys {V : Type} (d : list (string * V)) : list string :=
  map fst d.

(** Scores are Python floats, that is IEEE 754 binary64 numbers.
    [float_of_int] is the conversion Python applies to the integer operand of
    a division by a float (exact for the lengths of lists). *)
Definition float_of_int (z : Z) : float := PrimFloat.of_uint63 (Uint63.of_Z z).

(** The builtin [sum]: the items are added from left to right, starting
    from [0].  (From version 3.12 on CPython carries a compensation term
    while adding floats; it is not modelled.) *)
Definition py_sum (l : list float) : float := fold_left PrimFloat.add l 0%float.

(** ** Data of the application *)

(** One row of [SELECT id, question, option_a, option_b, option_c, option_d]. *)
Record question_data := mk_question {
  question_id : Z;
  question_text : string;
  option_a : string;
  option_b : string;
  option_c : string;
  option_d : string
}.

(** The dictionary appended to [st.session_state.answers]. *)
Record answer := mk_answer {
  question : string;
  selected_answer : string;
  rationale : string
}.

(** [st.session_state], with the eight keys [main] initialises.  The total
    score, the integer [0] until a quiz is submitted, is carried as a float. *)
Record session_state := mk_state {
  username : string;
  selected_quiz : option Z;
  questions : list question_data;
  current_question_index : Z;
  answers : list answer;
  quiz_completed : bool;
  total_score : float;
  proceed_to_quiz : bool
}.

(** The values given to missing keys at the top of [main]. *)
Definition initial_state : session_state :=
  {| username := "";
     selected_quiz := None;
     questions := [];
     current_question_index := 0;
     answers := [];
     quiz_completed := false;
     total_score := 0%float;
     proceed_to_quiz := false |}.

Definition set_username (v : string) (s : session_state) : session_state :=
  mk_state v (selected_quiz s) (questions s) (current_question_index s)
           (answers s) (quiz_completed s) (total_score s) (proceed_to_quiz s).

Definition set_selected_quiz (v : option Z) (s : session_state) : session_state :=
  mk_state (username s) v (questions s) (current_question_index s)
           (answers s) (quiz_completed s) (total_score s) (proceed_to_quiz s).

Definition set_questions (v : list question_data) (s : session_state) : session_state :=
  mk_state (username s) (selected_quiz s) v (current_question_index s)
           (answers s) (quiz_completed s) (total_score s) (proceed_to_quiz s).

Definition set_current_question_index (v : Z) (s : session_state) : session_state :=
  mk_state (username s) (selected_quiz s) (questions s) v
           (answers s) (quiz_completed s) (total_score s) (proceed_to_quiz s).

Definition set_answers (v : list answer) (s : session_state) : session_state :=
  mk_state (username s) (selected_quiz s) (questions s) (current_question_index s)
           v (quiz_completed s) (total_score s) (proceed_to_quiz s).

Definition set_quiz_completed (v : bool) (s : session_state) : session_state :=
  mk_state (username s) (selected_quiz s) (questions s) (current_question_index s)
           (answers s) v (total_score s) (proceed_to_quiz s).

Definition set_total_score (v : float) (s : session_state) : session_state :=
  mk_state (username s) (selected_quiz s) (questions s) (current_question_index s)
           (answers s) (quiz_completed s) v (proceed_to_quiz s).

Definition set_proceed_to_quiz (v : bool) (s : session_state) : session_state :=
  mk_state (username s) (selected_quiz s) (questions s) (current_question_index s)
           (answers s) (quiz_completed s) (total_score s) v.

(** ** The outside world of one execution *)

(** Result of a call that leaves the program: a value, or an exception with
    its message. *)
Inductive ext (A : Type) : Type :=
| Ok (a : A)
| Exc (msg : string).
Arguments Ok {A} a.
Arguments Exc {A} msg.

Inductive button_label : Type :=
| Proceed | Previous | Next | Submit | Retake_Quiz | Exit.

Definition button_eqb (a b : button_label) : bool :=
  match a, b with
  | Proceed, Proceed | Previous, Previous | Next, Next | Submit, Submit
  | Retake_Quiz, Retake_Quiz | Exit, Exit => true
  | _, _ => false
  end.

(** What one execution of [main] reads from the page and from the services.
    The language model is asked several times in one execution: its first
    argument is the number of calls made before. *)
Record run_input := mk_input {
  text_input : string;
  select_quizzes : ext (list (Z * string));
  selectbox : nat;
  select_questions : option Z -> ext (list question_data);
  radio : nat;
  text_area : string;
  clicked : option button_label;
  llm_complete : nat -> string -> ext string;
  insert_quiz_results : option Z -> string -> list answer -> float -> ext unit
}.

(** What an execution writes to the page. *)
Inductive ui : Type :=
| st_title (s : string)
| st_success (s : string)
| st_warning (s : string)
| st_error (s : string)
| st_subheader_question (n : Z)
| st_write (s : string)
| st_write_average (score : float).

Inductive exn : Type :=
| IndexError
| KeyError
| ZeroDivisionError
| LLMError (msg : string).

(** ** The monad of one execution *)

Inductive outcome (A : Type) : Type :=
| Return (a : A)
| Rerun
| Raise (e : exn).
Arguments Return {A} a.
Arguments Rerun {A}.
Arguments Raise {A} e.

Definition world : Type := (session_state * list ui)%type.

Definition Script (A : Type) : Type := world -> outcome A * world.

Definition ret {A : Type} (a : A) : Script A := fun w => (Return a, w).

Definition bind {A B : Type} (m : Script A) (f : A -> Script B) : Script B :=
  fun w =>
    match m w with
    | (Return a, w') => f a w'
    | (Rerun, w') => (Rerun, w')
    | (Raise e, w') => (Raise e, w')
    end.

Notation "x <- m ;; k" := (bind m (fun x => k))
  (at level 61, m at next level, right associativity).
Notation "m ;; k" := (bind m (fun _ => k))
  (at level 61, right associativity).

Definition get : Script session_state := fun w => (Return (fst w), w).

Definition modify (f : session_state -> session_state) : Script unit :=
  fun w => (Return tt, (f (fst w), snd w)).

Definition emit (u : ui) : Script unit :=
  fun w => (Return tt, (fst w, snd w ++ [u])).

Definition raise {A : Type} (e : exn) : Script A := fun w => (Raise e, w).

(** [st.rerun()] *)
Definition st_rerun {A : Type} : Script A := fun w => (Rerun, w).

Definition when (b : bool) (m : Script unit) : Script unit :=
  if b then m else ret tt.

Definition of_option {A : Type} (e : exn) (o : option A) : Script A :=
  match o with Some a => ret a | None => raise e end.

Definition of_result {A : Type} (r : exn + A) : Script A :=
  match r with inr a => ret a | inl e => raise e end.

(** [x / n] for a float (or the integer 0) [x] and an integer [n]. *)
Definition truediv (x : float) (n : Z) : exn + float :=
  if n =? 0 then inl ZeroDivisionError else inr (x / float_of_int n)%float.

(** [sum(scores) / len(scores)], the average computed at line 217. *)
Definition average_score (scores : list float) : exn + float :=
  truediv (py_sum scores) (len scores).

Definition nl : string := String (ascii_of_nat 10) EmptyString.

(** ** The program *)

Section App.

(** The builtin [float] applied to a [str]; [None] stands for [ValueError]. *)
Variable float_of_str : string -> option float.

(** [st.button(label)]: true in the execution triggered by pressing it. *)
Definition st_button (i : run_input) (label : button_label) : bool :=
  match clicked i with
  | Some b => button_eqb b label
  | None => false
  end.

(** [st.selectbox(_, options)]: the option at the chosen position, the first
    one by default. *)
Definition st_selectbox (i : run_input) (options : list string) : option string :=
  match nth_error options (selectbox i) with
  | Some o => Some o
  | None => hd_error options
  end.

(** [st.radio(_, [a, b, c, d])] *)
Definition st_radio (i : run_input) (a b c d : string) : string :=
  nth (radio i) [a; b; c; d] a.

Definition fetch_quizzes (i : run_input) : Script (list (Z * string)) :=
  match select_quizzes i with
  | Ok quizzes => ret quizzes
  | Exc e => emit (st_error ("Error fetching quizzes: " ++ e)) ;; ret []
  end.

Definition fetch_questions (i : run_input) (quiz_id : option Z)
  : Script (list question_data) :=
  match select_questions i quiz_id with
  | Ok questions => ret questions
  | Exc e => emit (st_error ("Error fetching questions: " ++ e)) ;; ret []
  end.

Definition log_quiz_results (i : run_input) (quiz_id : option Z)
    (candidate_name : string) (answers : list answer) (total_score : float)
  : Script unit :=
  match insert_quiz_results i quiz_id candidate_name answers total_score with
  | Ok _ => emit (st_success "Quiz results logged successfully!")
  | Exc e => emit (st_error ("Error logging quiz results: " ++ e))
  end.

Definition prompt_of (question selected_answer rationale : string) : string :=
  "Question: " ++ question ++ nl ++
  "Selected Answer: " ++ selected_answer ++ nl ++
  "Rationale: " ++ rationale ++ nl ++ nl ++
  "Rate the user's answer and rationale on a scale of 0 to 10, where 10 is excellent. " ++
  "Provide only the numeric score (e.g., 8).".

(** [k] is the number of calls to the model made before in this execution.
    The integer [0] returned after a [ValueError] is carried as the float
    zero, which [sum] and the division do not distinguish from it. *)
Definition get_score_from_groq (i : run_input) (k : nat)
    (question selected_answer rationale : string) : Script float :=
  let prompt := prompt_of question selected_answer rationale in
  match llm_complete i k prompt with
  | Exc e => raise (LLMError e)
  | Ok response_text =>
      match float_of_str (strip response_text) with
      | Some v => ret v
      | None =>
          emit (st_error ("Failed to parse score from Groq response: " ++ response_text)) ;;
          ret 0%float
      end
  end.

(** The loop [for answer in st.session_state.answers] of lines 208 to 214,
    with [scores] the list built so far. *)
Fixpoint for_answers (i : run_input) (k : nat) (l : list answer)
    (scores : list float) : Script (list float) :=
  match l with
  | [] => ret scores
  | answer :: l' =>
      score <- get_score_from_groq i k (question answer) (selected_answer answer)
                                   (rationale answer) ;;
      for_answers i (S k) l' (scores ++ [score])
  end.

(** Step 1: Enter Username *)
Definition enter_username (i : run_input) : Script unit :=
  s <- get ;;
  when (negb (truthy_str (username s)))
    (modify (set_username (text_input i)) ;;
     s <- get ;;
     when (truthy_str (username s))
       (emit (st_success ("Welcome, " ++ username s ++ "!")))).

(** The dictionary [{quiz[1]: quiz[0] for quiz in quizzes}]. *)
Definition quiz_options_of (quizzes : list (Z * string)) : list (string * Z) :=
  fold_left (fun d quiz => dict_set d (snd quiz) (fst quiz)) quizzes [].

(** Step 2: Select Quiz *)
Definition select_quiz (i : run_input) : Script unit :=
  s <- get ;;
  when (truthy_str (username s) && negb (proceed_to_quiz s))
    (quizzes <- fetch_quizzes i ;;
     if truthy_list quizzes then
       let quiz_options := quiz_options_of quizzes in
       let selected_quiz_title := st_selectbox i (dict_keys quiz_options) in
       quiz_id <- of_option KeyError
                    (match selected_quiz_title with
                     | Some title => dict_get quiz_options title
                     | None => None
                     end) ;;
       modify (set_selected_quiz (Some quiz_id)) ;;
       when (st_button i Proceed)
         (modify (set_proceed_to_quiz true) ;;
          s <- get ;;
          questions <- fetch_questions i (selected_quiz s) ;;
          modify (set_questions questions))
     else
       emit (st_warning "No quizzes available.")).

(** The [else] branch under the "Submit" button, lines 199 to 229. *)
Definition submit (i : run_input) (question selected_answer rationale : string)
  : Script unit :=
  modify (fun s => set_answers
                     (answers s ++ [mk_answer question selected_answer rationale]) s) ;;
  s <- get ;;
  scores <- for_answers i 0 (answers s) [] ;;
  total <- of_result (average_score scores) ;;
  modify (set_total_score total) ;;
  s <- get ;;
  log_quiz_results i (selected_quiz s) (username s) (answers s) (total_score s) ;;
  modify (set_quiz_completed true) ;;
  st_rerun.

(** The two columns of buttons under a question, lines 174 to 229. *)
Definition navigation_buttons (i : run_input)
    (question selected_answer rationale : string) : Script unit :=
  s <- get ;;
  when (current_question_index s >? 0)
    (when (st_button i Previous)
       (modify (fun s => set_current_question_index (current_question_index s - 1) s) ;;
        st_rerun)) ;;
  s <- get ;;
  if current_question_index s <? len (questions s) - 1 then
    when (st_button i Next)
      (if negb (truthy_str (strip rationale)) then
         emit (st_warning "Please provide a rationale before proceeding.")
       else
         modify (fun s => set_answers
                            (answers s ++ [mk_answer question selected_answer rationale]) s) ;;
         modify (fun s => set_current_question_index (current_question_index s + 1) s) ;;
         st_rerun)
  else
    when (st_button i Submit)
      (if negb (truthy_str (strip rationale)) then
         emit (st_warning "Please provide a rationale before submitting.")
       else
         submit i question selected_answer rationale).

(** Step 3: Display Questions *)
Definition display_questions (i : run_input) : Script unit :=
  s <- get ;;
  when (proceed_to_quiz s && truthy_list (questions s) && negb (quiz_completed s))
    (question_data <- of_option IndexError
                        (getitem (questions s) (current_question_index s)) ;;
     let question := question_text question_data in
     emit (st_subheader_question (current_question_index s + 1)) ;;
     emit (st_write question) ;;
     let selected_answer :=
       st_radio i (option_a question_data) (option_b question_data)
                  (option_c question_data) (option_d question_data) in
     let rationale := text_area i in
     navigation_buttons i question selected_answer rationale).

(** Step 4: End Screen.  [st.session_state.clear()] removes every key; the
    values are those of [initial_state] as soon as [main] runs again. *)
Definition end_screen (i : run_input) : Script unit :=
  s <- get ;;
  when (quiz_completed s)
    (emit (st_success "Quiz completed! Thank you for participating.") ;;
     emit (st_write_average (total_score s)) ;;
     when (st_button i Retake_Quiz)
       (modify (set_current_question_index 0) ;;
        modify (set_answers []) ;;
        modify (set_quiz_completed false) ;;
        modify (set_total_score 0%float) ;;
        modify (set_proceed_to_quiz false) ;;
        st_rerun) ;;
     when (st_button i Exit)
       (modify (fun _ => initial_state) ;;
        st_rerun)).

(** [main()].  The block that gives the eight keys a value when they are
    missing (lines 117 to 132) has no counterpart here: a [session_state]
    always has its eight fields, and a new session is [initial_state]. *)
Definition main (i : run_input) : Script unit :=
  emit (st_title "Quiz App") ;;
  enter_username i ;;
  select_quiz i ;;
  display_questions i ;;
  end_screen i.

(** One execution of the script on a fresh page. *)
Definition run (i : run_input) (s : session_state) : outcome unit * world :=
  main i (s, []).

Definition state_after (i : run_input) (s : session_state) : session_state :=
  fst (snd (run i s)).

Definition page_after (i : run_input) (s : session_state) : list ui :=
  snd (snd (run i s)).

(** The session after a sequence of executions. *)
Definition run_all (l : list run_input) (s : session_state) : session_state :=
  fold_left (fun s i => state_after i s) l s.

(** ** Vocabulary of the properties *)

(** The guards of the four steps of [main]: which screen a session shows. *)
Definition awaiting_name (s : session_state) : bool :=
  negb (truthy_str (username s)).

Definition awaiting_quiz_selection (s : session_state) : bool :=
  truthy_str (username s) && negb (proceed_to_quiz s).

Definition in_progress (s : session_state) : bool :=
  proceed_to_quiz s && truthy_list (questions s) && negb (quiz_completed s).

Definition completed (s : session_state) : bool := quiz_completed s.

(** What every session started from [initial_state] satisfies: the cursor is
    a valid position, a started quiz has a candidate name, a completed quiz
    was started on a non-empty question list, and nothing is recorded before
    the quiz starts. *)
Definition well_formed (s : session_state) : bool :=
  (0 <=? current_question_index s)
  && ((current_question_index s <? len (questions s))
      || (current_question_index s =? 0))
  && implb (proceed_to_quiz s) (truthy_str (username s))
  && implb (quiz_completed s) (proceed_to_quiz s && truthy_list (questions s))
  && (proceed_to_quiz s
      || ((current_question_index s =? 0) && negb (truthy_list (answers s)))).

(** A property of the session that an execution never breaks, however it
    ends. *)
Definition stable (P : session_state -> Prop) {A : Type} (m : Script A) : Prop :=
  forall w, P (fst w) -> P (fst (snd (m w))).

(** An execution that cannot end with the exception [e]. *)
Definition never_raises (e : exn) {A : Type} (m : Script A) : Prop :=
  forall w, fst (m w) <> Raise e.

(** The score [get_score_from_groq] returns for the response text [t], and
    what it writes to the page. *)
Definition score_of_response (t : string) : float :=
  match float_of_str (strip t) with
  | Some v => v
  | None => 0%float
  end.

Definition report_of_response (t : string) : list ui :=
  match float_of_str (strip t) with
  | Some _ => []
  | None => [st_error ("Failed to parse score from Groq response: " ++ t)]
  end.

Definition prompt_of_answer (a : answer) : string :=
  prompt_of (question a) (selected_answer a) (rationale a).

(** The scores and the page reports of the entries [l], graded from call
    number [k] on by a model that answers [g k prompt]. *)
Fixpoint graded (g : nat -> string -> string) (k : nat) (l : list answer)
  : list float :=
  match l with
  | [] => []
  | a :: l' => score_of_response (g k (prompt_of_answer a)) :: graded g (S k) l'
  end.

Fixpoint reports (g : nat -> string -> string) (k : nat) (l : list answer)
  : list ui :=
  match l with
  | [] => []
  | a :: l' => report_of_response (g k (prompt_of_answer a)) ++ reports g (S k) l'
  end.

(** The entry "Next" and "Submit" record for the question under the cursor. *)
Definition entry_of (i : run_input) (q : question_data) : answer :=
  mk_answer (question_text q)
            (st_radio i (option_a q) (option_b q) (option_c q) (option_d q))
            (text_area i).

(** The page above the buttons of a question. *)
Definition question_header (s : session_state) (q : question_data) : list ui :=
  [st_title "Quiz App";
   st_subheader_question (current_question_index s + 1);
   st_write (question_text q)].

(** The message shown when "Next" or "Submit" is pressed without a
    rationale. *)
Definition missing_rationale (b : button_label) : ui :=
  match b with
  | Next => st_warning "Please provide a rationale before proceeding."
  | _ => st_warning "Please provide a rationale before submitting."
  end.

(** The language model answers every call of this execution with a text. *)
Definition response_text (i : run_input) (k : nat) (p : string) : string :=
  match llm_complete i k p with
  | Ok t => t
  | Exc _ => ""
  end.

Definition model_answers (i : run_input) : Prop :=
  forall k p, llm_complete i k p = Ok (response_text i k p).

(** What [log_quiz_results] writes to the page. *)
Definition log_report (i : run_input) (quiz_id : option Z) (candidate_name : string)
    (answers : list answer) (total_score : float) : ui :=
  match insert_quiz_results i quiz_id candidate_name answers total_score with
  | Ok _ => st_success "Quiz results logged successfully!"
  | Exc e => st_error ("Error logging quiz results: " ++ e)
  end.

(** The mean of a list of scores: their sum divided by their number. *)
Definition mean (scores : list float) : float :=
  (py_sum scores / float_of_int (len scores))%float.

(** The same input with another outcome of the insertion into
    [quiz_results]. *)
Definition set_insert_quiz_results
    (f : option Z -> string -> list answer -> float -> ext unit) (i : run_input)
  : run_input :=
  mk_input (text_input i) (select_quizzes i) (selectbox i) (select_questions i)
           (radio i) (text_area i) (clicked i) (llm_complete i) f.

(** The question list [fetch_questions] returns. *)
Definition fetched (i : run_input) (quiz_id : option Z) : list question_data :=
  match select_questions i quiz_id with
  | Ok questions => questions
  | Exc _ => []
  end.

(** An execution in which "Previous" is not pressed and the model answers
    every call. *)
Definition forward_only (i : run_input) : Prop :=
  clicked i <> Some Previous /\ model_answers i.

(** The recorded answers are those of the questions before the cursor, or of
    all the questions once the quiz is completed. *)
Definition log_matches_cursor (s : session_state) : Prop :=
  if quiz_completed s then len (answers s) = len (questions s)
  else len (answers s) = current_question_index s.

(** The invariant of the sessions driven forward only. *)
Definition forward_invariant (s : session_state) : Prop :=
  well_formed s = true /\ log_matches_cursor s.

(** A started quiz without questions and not completed: none of the four
    steps is shown. *)
Definition blocked (s : session_state) : bool :=
  proceed_to_quiz s && negb (truthy_list (questions s)) && negb (quiz_completed s).

(** Every character of the string is whitespace. *)
Fixpoint all_space (s : string) : bool :=
  match s with
  | EmptyString => true
  | String c s' => isspace c && all_space s'
  end.

(** The entries recorded when the inputs [l] answer, one each, the questions
    [qs]. *)
Definition entries_of (l : list run_input) (qs : list question_data) : list answer :=
  map (fun iq => entry_of (fst iq) (snd iq)) (combine l qs).

(** An execution in which "Next" is pressed with a rationale. *)
Definition answers_next (i : run_input) : Prop :=
  clicked i = Some Next /\ strip (text_area i) <> "".

(** The session when step 3 starts: steps 1 and 2 have run. *)
Definition prelude (i : run_input) (s : session_state) : outcome unit * world :=
  (enter_username i ;; select_quiz i) (s, [st_title "Quiz App"]).

Definition prelude_state (i : run_input) (s : session_state) : session_state :=
  fst (snd (prelude i s)).

(** The session "Retake Quiz" leaves. *)
Definition retaken (s : session_state) : session_state :=
  mk_state (username s) (selected_quiz s) (questions s) 0 [] false 0%float false.

(** The model answers the call made for every entry of [l]; the calls of an
    execution are numbered from 0, in the order of the entries. *)
Definition all_answered (i : run_input) (l : list answer) : Prop :=
  forall n a, nth_error l n = Some a ->
              exists t, llm_complete i n (prompt_of_answer a) = Ok t.

(** The call made for the entry number [n] of [l] fails with the message
    [msg], and it is the first call that fails. *)
Definition first_failure (i : run_input) (l : list answer) (n : nat) (msg : string)
  : Prop :=
  (exists a, nth_error l n = Some a
             /\ llm_complete i n (prompt_of_answer a) = Exc msg)
  /\ forall m b, (m < n)%nat -> nth_error l m = Some b ->
                 exists t, llm_complete i m (prompt_of_answer b) = Ok t.

(** The ways averaging can fail: [EmptyScoreSet] is the error with which the
    specification (4.4, 7) has an explicit guard refuse the empty list;
    [Uncaught e] is the Python exception [e] leaving the expression. *)
Inductive aggregate_error : Type :=
| EmptyScoreSet
| Uncaught (e : exn).

(** The averaging in the words of the specification: the empty list is
    refused by the guard, any other list gives its mean. *)
Definition guarded_aggregate (scores : list float) : aggregate_error + float :=
  match scores with
  | [] => inl EmptyScoreSet
  | _ :: _ => inr (mean scores)
  end.

(** What line 217 does, in the same terms. *)
Definition aggregate_outcome (scores : list float) : aggregate_error + float :=
  match average_score scores with
  | inl e => inl (Uncaught e)
  | inr v => inr v
  end.

(** The ways an execution can end, with the session it leaves: nothing
    beyond steps 1 and 2, one of the five buttons of steps 3 and 4 taking
    effect ("Submit" when the model has answered the call of every entry,
    the total score being the mean of the scores of its responses), or
    "Submit" stopped by the first call to the model that fails. *)
Inductive execution_case (i : run_input) (s : session_state)
  : outcome unit -> session_state -> Prop :=
| case_shown :
    execution_case i s (Return tt) (prelude_state i s)
| case_retake :
    quiz_completed s = true -> clicked i = Some Retake_Quiz ->
    execution_case i s Rerun (retaken s)
| case_exit :
    quiz_completed s = true -> clicked i = Some Exit ->
    execution_case i s Rerun initial_state
| case_previous :
    in_progress s = true -> clicked i = Some Previous ->
    0 < current_question_index s ->
    execution_case i s Rerun
      (set_current_question_index (current_question_index s - 1) s)
| case_next (q : question_data) :
    in_progress s = true ->
    getitem (questions s) (current_question_index s) = Some q ->
    clicked i = Some Next ->
    current_question_index s < len (questions s) - 1 ->
    strip (text_area i) <> "" ->
    execution_case i s Rerun
      (set_current_question_index (current_question_index s + 1)
         (set_answers (answers s ++ [entry_of i q]) s))
| case_submit (q : question_data) :
    in_progress s = true ->
    getitem (questions s) (current_question_index s) = Some q ->
    clicked i = Some Submit ->
    current_question_index s = len (questions s) - 1 ->
    strip (text_area i) <> "" ->
    all_answered i (answers s ++ [entry_of i q]) ->
    execution_case i s Rerun
      (set_quiz_completed true
         (set_total_score
            (mean (graded (response_text i) 0 (answers s ++ [entry_of i q])))
            (set_answers (answers s ++ [entry_of i q]) s)))
| case_submit_failed (q : question_data) (n : nat) (msg : string) :
    in_progress s = true ->
    getitem (questions s) (current_question_index s) = Some q ->
    clicked i = Some Submit ->
    current_question_index s = len (questions s) - 1 ->
    strip (text_area i) <> "" ->
    first_failure i (answers s ++ [entry_of i q]) n msg ->
    execution_case i s (Raise (LLMError msg))
      (set_answers (answers s ++ [entry_of i q]) s).

(** A computation that only adds to the page. *)
Definition extends {A : Type} (m : Script A) : Prop :=
  forall w, exists o', snd (snd (m w)) = snd w ++ o'.

(** ** A sample session, used in the examples *)

(** A reader of non-negative decimal integers; it agrees with [float] on the
    strings made of a few decimal digits. *)
Fixpoint digits_value (s : string) (acc : Z) : option Z :=
  match s with
  | EmptyString => Some acc
  | String c s' =>
      let n := Z.of_nat (nat_of_ascii c) in
      if (48 <=? n) && (n <=? 57) then digits_value s' (10 * acc + (n - 48))
      else None
  end.

Definition float_of_digits (s : string) : option float :=
  match s with
  | EmptyString => None
  | String _ _ => option_map float_of_int (digits_value s 0)
  end.

Definition sample_q1 : question_data :=
  mk_question 11 "Which city is the capital of France?" "Lyon" "Paris" "Nice" "Lille".

Definition sample_q2 : question_data :=
  mk_question 12 "Which planet is the red planet?" "Venus" "Jupiter" "Mars" "Saturn".

Definition sample_q3 : question_data :=
  mk_question 13 "How many days are there in a week?" "5" "6" "7" "8".

Definition sample_a1 : answer :=
  mk_answer "Which city is the capital of France?" "Paris" "because B is correct".

Definition sample_a2 : answer :=
  mk_answer "Which planet is the red planet?" "Mars" "C fits".

(** The candidate has typed "Alice"; the catalogue holds one quiz of two
    questions; the model answers "9" to its first call and "7" to the others;
    the results are stored. *)
Definition sample_idle : run_input :=
  {| text_input := "Alice";
     select_quizzes := Ok [(1, "General Knowledge")];
     selectbox := 0;
     select_questions := fun _ => Ok [sample_q1; sample_q2];
     radio := 0;
     text_area := "";
     clicked := None;
     llm_complete := fun k _ => Ok (if Nat.eqb k 0 then "9" else "7");
     insert_quiz_results := fun _ _ _ _ => Ok tt |}.

(** The same page with a choice, a rationale and a pressed button. *)
Definition press (b : button_label) (choice : nat) (text : string) (i : run_input)
  : run_input :=
  mk_input (text_input i) (select_quizzes i) (selectbox i) (select_questions i)
           choice text (Some b) (llm_complete i) (insert_quiz_results i).

Definition sample_proceed : run_input := press Proceed 0 "" sample_idle.
Definition sample_next : run_input := press Next 1 "because B is correct" sample_idle.
Definition sample_next_blank : run_input := press Next 1 "   " sample_idle.
Definition sample_previous : run_input := press Previous 1 "because B is correct" sample_idle.
Definition sample_submit : run_input := press Submit 2 "C fits" sample_idle.
Definition sample_retake : run_input := press Retake_Quiz 0 "" sample_idle.

(** "Proceed" while the database returns no question. *)
Definition sample_proceed_no_question : run_input :=
  mk_input "Alice" (Ok [(1, "General Knowledge")]) 0 (fun _ => Ok [])
           0 "" (Some Proceed) (llm_complete sample_idle)
           (insert_quiz_results sample_idle).

(** "Proceed" after the quiz has been given another question. *)
Definition sample_proceed_changed : run_input :=
  mk_input "Alice" (Ok [(1, "General Knowledge")]) 0 (fun _ => Ok [sample_q3])
           0 "" (Some Proceed) (llm_complete sample_idle)
           (insert_quiz_results sample_idle).

(** "Submit" while the model answers the first call with a sentence. *)
Definition sample_submit_unparsable : run_input :=
  mk_input "Alice" (Ok [(1, "General Knowledge")]) 0 (select_questions sample_idle)
           2 "C fits" (Some Submit)
           (fun k _ => Ok (if Nat.eqb k 0 then "excellent answer" else "7"))
           (insert_quiz_results sample_idle).

(** "Submit" while the database refuses the insertion. *)
Definition sample_submit_not_stored : run_input :=
  set_insert_quiz_results (fun _ _ _ _ => Exc "connection refused") sample_submit.

Definition sample_exit : run_input := press Exit 0 "" sample_idle.

(** An execution while the query for the catalogue fails. *)
Definition sample_no_catalogue : run_input :=
  mk_input "Alice" (Exc "timeout") 0 (select_questions sample_idle)
           0 "" (Some Proceed) (llm_complete sample_idle)
           (insert_quiz_results sample_idle).

(** "Submit" while the second call to the model fails. *)
Definition sample_submit_model_down : run_input :=
  mk_input "Alice" (Ok [(1, "General Knowledge")]) 0 (select_questions sample_idle)
           2 "C fits" (Some Submit)
           (fun k _ => if Nat.eqb k 0 then Ok "9" else Exc "rate limit")
           (insert_quiz_results sample_idle).

Definition sample_selecting : session_state :=
  mk_state "Alice" (Some 1) [] 0 [] false 0%float false.

Definition sample_at_q1 : session_state :=
  mk_state "Alice" (Some 1) [sample_q1; sample_q2] 0 [] false 0%float true.

Definition sample_at_q2 : session_state :=
  mk_state "Alice" (Some 1) [sample_q1; sample_q2] 1 [sample_a1] false 0%float true.

Definition sample_completed : session_state :=
  mk_state "Alice" (Some 1) [sample_q1; sample_q2] 1 [sample_a1; sample_a2] true
           8%float true.

(** ** Lemmas on the monad *)

(** Boolean tests of the program as propositions. *)
Ltac bool_to_prop :=
  rewrite ?andb_true_iff, ?orb_true_iff, ?negb_true_iff, ?Z.leb_le, ?Z.ltb_lt,
    ?Z.eqb_eq, ?Z.gtb_ltb in *.

Lemma stable_bind (P : session_state -> Prop) {A B : Type}
    (m : Script A) (f : A -> Script B) :
  stable P m -> (forall a, stable P (f a)) -> stable P (bind m f).
Proof.
  intros Hm Hf w Hw. unfold bind.
  specialize (Hm w Hw).
  destruct (m w) as [[a | | e] w']; simpl in *; auto.
  now apply Hf.
Qed.

Lemma stable_emit (P : session_state -> Prop) (u : ui) : stable P (emit u).
Proof. intros w Hw. exact Hw. Qed.

Lemma stable_ret (P : session_state -> Prop) {A : Type} (a : A) : stable P (ret a).
Proof. intros w Hw. exact Hw. Qed.

Lemma stable_raise (P : session_state -> Prop) {A : Type} (e : exn) :
  stable P (@raise A e).
Proof. intros w Hw. exact Hw. Qed.

Lemma stable_rerun (P : session_state -> Prop) {A : Type} : stable P (@st_rerun A).
Proof. intros w Hw. exact Hw. Qed.

Lemma stable_when (P : session_state -> Prop) (b : bool) (m : Script unit) :
  (b = true -> stable P m) -> stable P (when b m).
Proof.
  intros Hm. destruct b; simpl.
  - now apply Hm.
  - apply stable_ret.
Qed.

Lemma stable_modify (P : session_state -> Prop) (f : session_state -> session_state) :
  (forall s, P s -> P (f s)) -> stable P (modify f).
Proof. intros Hf w Hw. simpl. now apply Hf. Qed.

(** Reading the state gives the continuation the state it starts in. *)
Lemma stable_get (P : session_state -> Prop) {B : Type}
    (f : session_state -> Script B) :
  (forall s o, P s -> P (fst (snd (f s (s, o))))) ->
  stable P (bind get f).
Proof. intros Hf [s o] Hw. unfold bind, get. simpl in *. now apply Hf. Qed.

Lemma never_raises_bind (e : exn) {A B : Type} (m : Script A) (f : A -> Script B) :
  never_raises e m -> (forall a, never_raises e (f a)) -> never_raises e (bind m f).
Proof.
  intros Hm Hf w. unfold bind. specialize (Hm w).
  destruct (m w) as [[a | | e'] w']; simpl in *.
  - apply Hf.
  - discriminate.
  - intros E. apply Hm. now inversion E.
Qed.

Lemma never_raises_when (e : exn) (b : bool) (m : Script unit) :
  never_raises e m -> never_raises e (when b m).
Proof. intros Hm. destruct b; simpl; [exact Hm | intros w; discriminate]. Qed.

(** ** The grading loop *)

Lemma get_score_state (i : run_input) (k : nat) (q a r : string) (w : world) :
  fst (snd (get_score_from_groq i k q a r w)) = fst w.
Proof.
  unfold get_score_from_groq.
  destruct (llm_complete i k _); [|reflexivity].
  destruct (float_of_str _); reflexivity.
Qed.

Lemma for_answers_state (i : run_input) (l : list answer) :
  forall k scores w, fst (snd (for_answers i k l scores w)) = fst w.
Proof.
  induction l as [|a l IH]; intros k scores w; simpl; [reflexivity|].
  unfold bind.
  pose proof (get_score_state i k (question a) (selected_answer a) (rationale a) w) as E.
  destruct (get_score_from_groq i k _ _ _ w) as [[v | | e] w']; simpl in *; auto.
  now rewrite IH.
Qed.

(** The loop appends one score per entry: it never returns fewer scores than
    there are entries. *)
Lemma for_answers_length (i : run_input) (l : list answer) :
  forall k scores w r w',
    for_answers i k l scores w = (Return r, w') ->
    length r = (length scores + length l)%nat.
Proof.
  induction l as [|a l IH]; intros k scores w r w' E; simpl in *.
  - inversion E; subst. lia.
  - unfold bind in E.
    destruct (get_score_from_groq i k _ _ _ w) as [[v | | e] w1]; try discriminate.
    apply IH in E. rewrite E, length_app. simpl. lia.
Qed.

Lemma get_score_ok (i : run_input) (k : nat) (q a r t : string) (s : session_state)
    (o : list ui) :
  llm_complete i k (prompt_of q a r) = Ok t ->
  get_score_from_groq i k q a r (s, o)
  = (Return (score_of_response t), (s, o ++ report_of_response t)).
Proof.
  intros E. unfold get_score_from_groq, score_of_response, report_of_response.
  rewrite E. destruct (float_of_str (strip t)); simpl.
  - unfold ret. now rewrite app_nil_r.
  - reflexivity.
Qed.

(** When the model answers every call, the loop grades every entry, in
    order, and the page receives the reports of the unparsable responses. *)
Lemma for_answers_ok (i : run_input) (g : nat -> string -> string) :
  (forall k p, llm_complete i k p = Ok (g k p)) ->
  forall l k scores s o,
    for_answers i k l scores (s, o)
    = (Return (scores ++ graded g k l), (s, o ++ reports g k l)).
Proof.
  intros Hg. induction l as [|a l IH]; intros k scores s o; simpl.
  - unfold ret. now rewrite !app_nil_r.
  - unfold bind. rewrite (get_score_ok _ _ _ _ _ _ _ _ (Hg k _)).
    rewrite IH. unfold prompt_of_answer. now rewrite <- !app_assoc.
Qed.

Lemma graded_length (g : nat -> string -> string) (l : list answer) :
  forall k, length (graded g k l) = length l.
Proof. induction l as [|a l IH]; intros k; simpl; [reflexivity | now rewrite IH]. Qed.

(** ** The four steps, one at a time *)

Lemma st_button_clicked (i : run_input) (b b' : button_label) :
  clicked i = Some b -> st_button i b' = button_eqb b b'.
Proof. intros E. unfold st_button. now rewrite E. Qed.

Lemma truthy_str_empty (t : string) : truthy_str t = false <-> t = "".
Proof. destruct t; simpl; split; intros; congruence. Qed.

Lemma truthy_str_nonempty (t : string) : truthy_str t = true <-> t <> "".
Proof. destruct t; simpl; split; intros; congruence. Qed.

Lemma enter_username_named (i : run_input) (s : session_state) (o : list ui) :
  truthy_str (username s) = true ->
  enter_username i (s, o) = (Return tt, (s, o)).
Proof. intros E. unfold enter_username, bind, get. simpl. now rewrite E. Qed.

Lemma select_quiz_started (i : run_input) (s : session_state) (o : list ui) :
  proceed_to_quiz s = true ->
  select_quiz i (s, o) = (Return tt, (s, o)).
Proof.
  intros E. unfold select_quiz, bind, get. simpl. rewrite E.
  now rewrite andb_false_r.
Qed.

Lemma end_screen_not_completed (i : run_input) (s : session_state) (o : list ui) :
  quiz_completed s = false ->
  end_screen i (s, o) = (Return tt, (s, o)).
Proof. intros E. unfold end_screen, bind, get. simpl. now rewrite E. Qed.

Lemma display_questions_hidden (i : run_input) (s : session_state) (o : list ui) :
  in_progress s = false ->
  display_questions i (s, o) = (Return tt, (s, o)).
Proof.
  unfold in_progress. intros E. unfold display_questions, bind, get. simpl.
  now rewrite E.
Qed.

Lemma getitem_length {A : Type} (l : list A) (z : Z) :
  0 <= z < len l -> getitem l z = nth_error l (Z.to_nat z).
Proof.
  intros H. unfold getitem.
  destruct (0 <=? z) eqn:E1; [|lia]. destruct (z <? len l) eqn:E2; [|lia].
  reflexivity.
Qed.

Lemma getitem_some {A : Type} (l : list A) (z : Z) :
  0 <= z < len l -> exists a, getitem l z = Some a.
Proof.
  intros H. rewrite getitem_length by exact H.
  destruct (nth_error l (Z.to_nat z)) as [a|] eqn:E; [now exists a|].
  apply nth_error_None in E. unfold len in H. lia.
Qed.

(** What [well_formed] says, as propositions. *)
Lemma well_formed_spec (s : session_state) :
  well_formed s = true ->
  0 <= current_question_index s
  /\ (current_question_index s < len (questions s) \/ current_question_index s = 0)
  /\ (proceed_to_quiz s = true -> truthy_str (username s) = true)
  /\ (quiz_completed s = true ->
      proceed_to_quiz s = true /\ truthy_list (questions s) = true)
  /\ (proceed_to_quiz s = false ->
      current_question_index s = 0 /\ answers s = []).
Proof.
  unfold well_formed. intros H.
  rewrite !andb_true_iff in H.
  destruct H as [[[[H0 H1] H2] H3] H4].
  apply Z.leb_le in H0.
  split; [exact H0|]. split.
  { apply orb_true_iff in H1. destruct H1 as [H1|H1]; [left|right]; lia. }
  split.
  { intros E. now rewrite E in H2. }
  split.
  { intros E. rewrite E in H3. simpl in H3. now apply andb_true_iff in H3. }
  intros E. rewrite E in H4. simpl in H4. apply andb_true_iff in H4.
  destruct H4 as [H4 H5]. split; [lia|]. now destruct (answers s).
Qed.

Lemma truthy_list_len {A : Type} (l : list A) :
  truthy_list l = true -> 0 < len l.
Proof. destruct l; simpl; [discriminate|]. unfold len. simpl. lia. Qed.

(** In a session that shows a question the cursor points at a question. *)
Lemma in_progress_cursor (s : session_state) :
  well_formed s = true -> in_progress s = true ->
  0 <= current_question_index s < len (questions s).
Proof.
  intros W P. apply well_formed_spec in W. unfold in_progress in P.
  apply andb_prop in P. destruct P as [P _]. apply andb_prop in P.
  destruct P as [_ P]. apply truthy_list_len in P. lia.
Qed.

Lemma navigation_buttons_cases (i : run_input) (q a r : string)
    (s : session_state) (o : list ui) :
  navigation_buttons i q a r (s, o) =
  if (current_question_index s >? 0) && st_button i Previous then
    (Rerun, (set_current_question_index (current_question_index s - 1) s, o))
  else if current_question_index s <? len (questions s) - 1 then
    if st_button i Next then
      if truthy_str (strip r) then
        (Rerun,
         (set_current_question_index (current_question_index s + 1)
            (set_answers (answers s ++ [mk_answer q a r]) s), o))
      else
        (Return tt, (s, o ++ [st_warning "Please provide a rationale before proceeding."]))
    else (Return tt, (s, o))
  else
    if st_button i Submit then
      if truthy_str (strip r) then submit i q a r (s, o)
      else
        (Return tt, (s, o ++ [st_warning "Please provide a rationale before submitting."]))
    else (Return tt, (s, o)).
Proof.
  unfold navigation_buttons, bind, get. simpl.
  destruct (current_question_index s >? 0); simpl;
    [destruct (st_button i Previous); simpl; [reflexivity|]|];
    (destruct (current_question_index s <? len (questions s) - 1);
     [destruct (st_button i Next) | destruct (st_button i Submit)]; simpl;
     try reflexivity; destruct (truthy_str (strip r)); reflexivity).
Qed.

(** [submit] ends with [st.rerun()] or with an exception, never by falling
    through, and whatever happens the entry has been recorded. *)
Lemma submit_not_return (i : run_input) (q a r : string) (w : world) :
  forall u w', submit i q a r w <> (Return u, w').
Proof.
  intros u w'. unfold submit, bind, get, modify. simpl.
  destruct (for_answers i 0 _ [] _) as [[scores | | e] w1]; try discriminate.
  destruct (of_result (average_score scores) w1) as [[t | | e] w2]; try discriminate.
  simpl. destruct (log_quiz_results i _ _ _ _ _) as [[[] | | e] w3]; discriminate.
Qed.

Lemma submit_state (i : run_input) (q a r : string) (s : session_state) (o : list ui) :
  let s1 := set_answers (answers s ++ [mk_answer q a r]) s in
  let s' := fst (snd (submit i q a r (s, o))) in
  s' = s1
  \/ exists t, s' = set_quiz_completed true (set_total_score t s1)
               /\ fst (submit i q a r (s, o)) = Rerun.
Proof.
  intros s1 s'. subst s'. unfold submit, bind, get, modify. simpl. fold s1.
  pose proof (for_answers_state i (answers s1) 0 [] (s1, o)) as E.
  destruct (for_answers i 0 _ [] _) as [[scores | | e] [s2 o2]]; simpl in *; subst;
    auto.
  unfold of_result. destruct (average_score scores) as [e | t]; simpl; auto.
  right. exists t. unfold log_quiz_results.
  destruct (insert_quiz_results i _ _ _ _); simpl; auto.
Qed.

Lemma average_score_nonempty (scores : list float) :
  scores <> [] -> average_score scores = inr (mean scores).
Proof.
  intros N. unfold average_score, truediv, mean.
  destruct (len scores =? 0) eqn:E; [|reflexivity].
  apply Z.eqb_eq in E. destruct scores; [congruence|]. unfold len in E. simpl in E. lia.
Qed.

Lemma graded_snoc_nonempty (g : nat -> string -> string) (k : nat)
    (l : list answer) (a : answer) :
  graded g k (l ++ [a]) <> [].
Proof.
  intros E. apply (f_equal (@length float)) in E.
  rewrite graded_length, length_app in E. simpl in E. lia.
Qed.

(** [submit] when the model answers every call: every entry is graded, the
    mean of the scores becomes the total score, the storing of the results
    is reported, and the quiz is completed. *)
Lemma submit_ok (i : run_input) (q a r : string) (s : session_state) (o : list ui) :
  model_answers i ->
  let s1 := set_answers (answers s ++ [mk_answer q a r]) s in
  let scores := graded (response_text i) 0 (answers s1) in
  submit i q a r (s, o)
  = (Rerun,
     (set_quiz_completed true (set_total_score (mean scores) s1),
      (o ++ reports (response_text i) 0 (answers s1))
        ++ [log_report i (selected_quiz s) (username s) (answers s1) (mean scores)])).
Proof.
  intros M s1 scores. unfold submit, bind at 1, modify. simpl. fold s1.
  unfold bind at 1, get. simpl.
  unfold bind at 1. rewrite (for_answers_ok i _ M). simpl. fold scores.
  unfold bind at 1. rewrite average_score_nonempty
    by (subst scores s1; simpl; apply graded_snoc_nonempty).
  simpl. unfold bind at 1. simpl. unfold bind at 1, get. simpl.
  unfold bind at 1. unfold log_quiz_results, log_report.
  destruct (insert_quiz_results i _ _ _ _); reflexivity.
Qed.

Lemma graded_nth (g : nat -> string -> string) (l : list answer) :
  forall k n a,
    nth_error l n = Some a ->
    nth_error (graded g k l) n
    = Some (score_of_response (g (k + n)%nat (prompt_of_answer a))).
Proof.
  induction l as [|a0 l IH]; intros k n a E.
  - now destruct n.
  - destruct n as [|n]; simpl in *.
    + inversion E; subst. now rewrite Nat.add_0_r.
    + rewrite (IH (S k) n a E). do 3 f_equal. lia.
Qed.

Lemma reports_nth (g : nat -> string -> string) (l : list answer) :
  forall k n a u,
    nth_error l n = Some a ->
    In u (report_of_response (g (k + n)%nat (prompt_of_answer a))) ->
    In u (reports g k l).
Proof.
  induction l as [|a0 l IH]; intros k n a u E I.
  - now destruct n.
  - simpl. apply in_or_app. destruct n as [|n]; simpl in *.
    + inversion E; subst. left. now rewrite Nat.add_0_r in I.
    + right. apply (IH (S k) n a u E).
      now replace (S k + n)%nat with (k + S n)%nat by lia.
Qed.

Lemma get_score_raises (i : run_input) (k : nat) (q a r : string) (w : world) :
  forall e w', get_score_from_groq i k q a r w = (Raise e, w') ->
               exists msg, e = LLMError msg.
Proof.
  intros e w'. unfold get_score_from_groq.
  destruct (llm_complete i k _) as [t | msg].
  - destruct (float_of_str (strip t)); discriminate.
  - intros E. inversion E. now exists msg.
Qed.

(** The only exception that leaves the grading loop is a failure of the
    call to the model. *)
Lemma for_answers_raises (i : run_input) (l : list answer) :
  forall k scores w e w',
    for_answers i k l scores w = (Raise e, w') -> exists msg, e = LLMError msg.
Proof.
  induction l as [|a l IH]; intros k scores w e w' E; simpl in E; [discriminate|].
  unfold bind in E.
  destruct (get_score_from_groq i k _ _ _ w) as [[v | | e1] w1] eqn:S1.
  - now apply IH in E.
  - discriminate.
  - inversion E; subst. now apply get_score_raises in S1.
Qed.

Lemma submit_outcome (i : run_input) (q a r : string) (w : world) :
  match fst (submit i q a r w) with
  | Rerun | Raise (LLMError _) => True
  | _ => False
  end.
Proof.
  unfold submit, bind, get, modify. simpl.
  destruct (for_answers i 0 _ [] _) as [[scores | | e] w1] eqn:F.
  - apply for_answers_length in F. rewrite length_app in F. simpl in F.
    rewrite average_score_nonempty
      by (destruct scores; [simpl in F; lia | discriminate]).
    simpl. unfold log_quiz_results.
    destruct (insert_quiz_results i _ _ _ _); exact I.
  - exact I.
  - apply for_answers_raises in F. destruct F as [msg ->]. exact I.
Qed.

(** An execution in a session that shows a question: steps 1, 2 and 4 do
    nothing, step 3 writes the question and handles the buttons. *)
Lemma run_in_progress (i : run_input) (s : session_state) (q : question_data) :
  well_formed s = true -> in_progress s = true ->
  getitem (questions s) (current_question_index s) = Some q ->
  run i s
  = navigation_buttons i (question_text q)
      (st_radio i (option_a q) (option_b q) (option_c q) (option_d q))
      (text_area i) (s, question_header s q).
Proof.
  intros W P G. pose proof (well_formed_spec s W) as (_ & _ & U & _ & _).
  unfold in_progress in P. pose proof P as P'.
  rewrite !andb_true_iff in P'. destruct P' as [[Pq _] Pc].
  apply negb_true_iff in Pc.
  unfold run, main. unfold bind at 1. simpl.
  unfold bind at 1. rewrite enter_username_named by auto.
  unfold bind at 1. rewrite select_quiz_started by auto.
  unfold bind at 1. unfold display_questions. unfold bind at 1, get. simpl.
  rewrite P. simpl. rewrite G. unfold bind at 1. simpl.
  unfold bind at 1. simpl. unfold bind at 1. simpl.
  unfold question_header.
  set (o := [st_title _; _; _]).
  rewrite navigation_buttons_cases.
  destruct ((current_question_index s >? 0) && st_button i Previous); [reflexivity|].
  destruct (current_question_index s <? len (questions s) - 1).
  - destruct (st_button i Next); [destruct (truthy_str (strip (text_area i)))|];
      try reflexivity; now rewrite end_screen_not_completed.
  - destruct (st_button i Submit); [destruct (truthy_str (strip (text_area i)))|];
      try (now rewrite end_screen_not_completed).
    pose proof (submit_not_return i (question_text q)
                  (st_radio i (option_a q) (option_b q) (option_c q) (option_d q))
                  (text_area i) (s, o)) as N.
    destruct (submit i _ _ _ (s, o)) as [[[] | | e] w']; try reflexivity.
    now specialize (N tt w').
Qed.

(** ** The session invariant *)

Lemma well_formed_initial : well_formed initial_state = true.
Proof. reflexivity. Qed.

Lemma enter_username_well_formed (i : run_input) :
  stable (fun s => well_formed s = true) (enter_username i).
Proof.
  intros [s o] W. simpl in W. unfold enter_username, bind, get. simpl.
  destruct (truthy_str (username s)) eqn:U; simpl; [exact W|].
  assert (W' : well_formed (set_username (text_input i) s) = true).
  { destruct s as [u sq qs idx ans qc ts p]. unfold well_formed in *. simpl in *.
    rewrite U in W. destruct p; simpl in *.
    - now rewrite andb_false_r in W.
    - bool_to_prop. intuition. }
  destruct (truthy_str (text_input i)); exact W'.
Qed.

Lemma select_quiz_well_formed (i : run_input) :
  stable (fun s => well_formed s = true) (select_quiz i).
Proof.
  intros [s o] W. simpl in W. unfold select_quiz, bind, get. simpl.
  destruct (truthy_str (username s)) eqn:U; simpl; [|exact W].
  destruct (proceed_to_quiz s) eqn:P; simpl; [exact W|].
  unfold fetch_quizzes.
  destruct (select_quizzes i) as [quizzes | e]; simpl; [|exact W].
  destruct (truthy_list quizzes); simpl; [|exact W].
  destruct (match st_selectbox i _ with Some _ => _ | None => _ end) as [id|];
    simpl; [|exact W].
  destruct s as [u sq qs idx ans qc ts p]. simpl in *. subst p.
  destruct (st_button i Proceed); simpl; [|exact W].
  unfold fetch_questions.
  assert (idx = 0 /\ qc = false) as [-> ->].
  { unfold well_formed in W. simpl in W. destruct qc; simpl in W.
    - now rewrite andb_false_r in W.
    - bool_to_prop. intuition. }
  destruct (select_questions i (Some id)) as [qs' | e]; simpl;
    unfold well_formed; simpl; now rewrite U, ?orb_true_r.
Qed.

Lemma end_screen_well_formed (i : run_input) :
  stable (fun s => well_formed s = true) (end_screen i).
Proof.
  intros [s o] W. simpl in W. unfold end_screen, bind, get. simpl.
  destruct (quiz_completed s); simpl; [|exact W].
  destruct (st_button i Retake_Quiz); simpl.
  { unfold well_formed. simpl. now rewrite orb_true_r. }
  destruct (st_button i Exit); simpl; [reflexivity | exact W].
Qed.

Lemma display_questions_well_formed (i : run_input) :
  stable (fun s => well_formed s = true) (display_questions i).
Proof.
  intros [s o] W. simpl in W.
  destruct (in_progress s) eqn:P; [|now rewrite display_questions_hidden].
  pose proof (in_progress_cursor s W P) as C.
  unfold display_questions, bind at 1, get. simpl.
  unfold in_progress in P. rewrite P. simpl.
  destruct (getitem_some (questions s) _ C) as [q G]. rewrite G.
  unfold bind at 1. simpl. unfold bind at 1. simpl. unfold bind at 1. simpl.
  rewrite navigation_buttons_cases.
  rewrite !andb_true_iff, negb_true_iff in P. destruct P as [[Pp Pq] Pc].
  destruct s as [u sq qs idx ans qc ts p]. simpl in *. subst p qc.
  destruct ((idx >? 0) && st_button i Previous) eqn:B; simpl.
  { apply andb_true_iff in B. destruct B as [B _].
    unfold well_formed in *. simpl in *. bool_to_prop. intuition lia. }
  destruct (idx <? len qs - 1) eqn:L.
  - destruct (st_button i Next); [destruct (truthy_str _)|]; simpl; try exact W.
    unfold well_formed in *. simpl in *. bool_to_prop. intuition lia.
  - destruct (st_button i Submit); [destruct (truthy_str _)|]; simpl; try exact W.
    match goal with |- context [submit i ?a ?b ?c (?s, ?o)] =>
      destruct (submit_state i a b c s o) as [E | [t [E _]]] end;
      rewrite E; unfold well_formed in *; simpl in *; rewrite ?Pq; exact W.
Qed.

(** The invariant holds after every execution of [main], however it ends. *)
Lemma main_well_formed (i : run_input) :
  stable (fun s => well_formed s = true) (main i).
Proof.
  unfold main.
  apply stable_bind; [apply stable_emit | intros _].
  apply stable_bind; [apply enter_username_well_formed | intros _].
  apply stable_bind; [apply select_quiz_well_formed | intros _].
  apply stable_bind; [apply display_questions_well_formed | intros _].
  apply end_screen_well_formed.
Qed.

Lemma state_after_well_formed (i : run_input) (s : session_state) :
  well_formed s = true -> well_formed (state_after i s) = true.
Proof. intros W. exact (main_well_formed i (s, []) W). Qed.

Lemma run_all_well_formed (l : list run_input) :
  forall s, well_formed s = true -> well_formed (run_all l s) = true.
Proof.
  induction l as [|i l IH]; intros s W; simpl; [exact W|].
  apply IH. now apply state_after_well_formed.
Qed.

(** ** Starting a quiz *)

Lemma dict_get_key {V : Type} (d : list (string * V)) (k : string) :
  In k (dict_keys d) -> exists v, dict_get d k = Some v.
Proof.
  induction d as [|[k' v'] d IH]; simpl; [contradiction|].
  intros [E | I].
  - subst. rewrite String.eqb_refl. now exists v'.
  - destruct (String.eqb k' k); [now exists v' | now apply IH].
Qed.

Lemma dict_set_nonempty {V : Type} (d : list (string * V)) (k : string) (v : V) :
  dict_set d k v <> [].
Proof. destruct d as [|[k' v'] d]; simpl; [|destruct (String.eqb k' k)]; discriminate. Qed.

Lemma quiz_options_nonempty (quizzes : list (Z * string)) :
  quizzes <> [] -> quiz_options_of quizzes <> [].
Proof.
  unfold quiz_options_of. intros N.
  destruct (exists_last N) as [l [x ->]].
  rewrite fold_left_app. simpl. apply dict_set_nonempty.
Qed.

Lemma st_selectbox_in (i : run_input) (options : list string) :
  options <> [] -> exists t, st_selectbox i options = Some t /\ In t options.
Proof.
  intros N. unfold st_selectbox.
  destruct (nth_error options (selectbox i)) as [t|] eqn:E.
  - exists t. split; [reflexivity | now apply nth_error_In in E].
  - destruct options as [|t options]; [congruence|].
    exists t. split; [reflexivity | now left].
Qed.

(** The quiz the selection box designates exists in the dictionary. *)
Lemma selected_quiz_found (i : run_input) (quizzes : list (Z * string)) :
  quizzes <> [] ->
  exists id,
    match st_selectbox i (dict_keys (quiz_options_of quizzes)) with
    | Some title => dict_get (quiz_options_of quizzes) title
    | None => None
    end = Some id.
Proof.
  intros N. apply quiz_options_nonempty in N.
  destruct (st_selectbox_in i (dict_keys (quiz_options_of quizzes))) as [t [E I]].
  { unfold dict_keys. destruct (quiz_options_of quizzes); [congruence | discriminate]. }
  rewrite E. now apply dict_get_key.
Qed.

(** Step 3 changes nothing when none of its three buttons is pressed. *)
Lemma display_questions_idle (i : run_input) (s : session_state) (o : list ui) :
  st_button i Previous = false -> st_button i Next = false ->
  st_button i Submit = false ->
  fst (snd (display_questions i (s, o))) = s.
Proof.
  intros B1 B2 B3. unfold display_questions, bind at 1, get. simpl.
  destruct (proceed_to_quiz s && truthy_list (questions s) && negb (quiz_completed s));
    simpl; [|reflexivity].
  unfold bind at 1.
  destruct (getitem (questions s) (current_question_index s)) as [q|]; simpl;
    [|reflexivity].
  unfold bind at 1. simpl. unfold bind at 1. simpl.
  rewrite navigation_buttons_cases, B1, B2, B3, andb_false_r.
  now destruct (current_question_index s <? len (questions s) - 1).
Qed.

Lemma select_quiz_proceed (i : run_input) (s : session_state) (o : list ui)
    (quizzes : list (Z * string)) (id : Z) :
  truthy_str (username s) = true -> proceed_to_quiz s = false ->
  select_quizzes i = Ok quizzes -> quizzes <> [] ->
  clicked i = Some Proceed ->
  match st_selectbox i (dict_keys (quiz_options_of quizzes)) with
  | Some title => dict_get (quiz_options_of quizzes) title
  | None => None
  end = Some id ->
  select_quiz i (s, o)
  = (Return tt,
     (set_questions (fetched i (Some id))
        (set_proceed_to_quiz true (set_selected_quiz (Some id) s)),
      o ++ match select_questions i (Some id) with
           | Ok _ => []
           | Exc e => [st_error ("Error fetching questions: " ++ e)]
           end)).
Proof.
  intros U P Q N B E.
  unfold select_quiz, bind at 1, get. simpl. rewrite U, P. simpl.
  unfold bind at 1, fetch_quizzes. rewrite Q. simpl.
  destruct quizzes as [|x quizzes]; [congruence|]. simpl truthy_list. cbv iota.
  unfold bind at 1. rewrite E. simpl. unfold bind at 1. simpl.
  rewrite (st_button_clicked i Proceed) by exact B. simpl.
  unfold bind at 1. simpl. unfold bind at 1, get. simpl.
  unfold bind at 1, fetch_questions, fetched.
  destruct (select_questions i (Some id)); simpl; [now rewrite app_nil_r | reflexivity].
Qed.

(** "Proceed" on the quiz selection screen, when the catalogue is not empty:
    the quiz is marked as started and its questions are whatever the
    database returns at that moment. *)
Lemma run_proceed (i : run_input) (s : session_state) (quizzes : list (Z * string)) :
  well_formed s = true -> awaiting_quiz_selection s = true ->
  select_quizzes i = Ok quizzes -> quizzes <> [] ->
  clicked i = Some Proceed ->
  exists id,
    state_after i s
    = set_questions (fetched i (Some id))
        (set_proceed_to_quiz true (set_selected_quiz (Some id) s)).
Proof.
  intros W A Q N B.
  unfold awaiting_quiz_selection in A. apply andb_true_iff in A.
  destruct A as [U P]. apply negb_true_iff in P.
  pose proof (well_formed_spec s W) as (_ & _ & _ & Wc & _).
  assert (C : quiz_completed s = false).
  { destruct (quiz_completed s); [|reflexivity]. destruct Wc; congruence. }
  destruct (selected_quiz_found i quizzes N) as [id E].
  exists id. unfold state_after, run, main.
  unfold bind at 1. simpl. unfold bind at 1. rewrite enter_username_named by exact U.
  unfold bind at 1.
  pose proof (fun o => select_quiz_proceed i s o quizzes id U P Q N B E) as S2.
  rewrite S2. unfold bind at 1.
  match goal with |- context [display_questions i (?s1, ?o1)] =>
    pose proof (display_questions_idle i s1 o1) as D;
    destruct (display_questions i (s1, o1)) as [[[] | | e] [s2 o2]] end;
    simpl in D; rewrite !(st_button_clicked i Proceed) in D by exact B;
    specialize (D eq_refl eq_refl eq_refl); subst s2; simpl; try reflexivity.
  rewrite end_screen_not_completed; [reflexivity | exact C].
Qed.

(** "Proceed" when the database returns at least one question: the first
    question is shown. *)
Lemma proceed_starts_quiz (i : run_input) (s : session_state)
    (quizzes : list (Z * string)) :
  well_formed s = true -> awaiting_quiz_selection s = true ->
  select_quizzes i = Ok quizzes -> quizzes <> [] ->
  clicked i = Some Proceed ->
  (forall id, fetched i id <> []) ->
  in_progress (state_after i s) = true
  /\ current_question_index (state_after i s) = 0.
Proof.
  intros W A Q N B F.
  destruct (run_proceed i s quizzes W A Q N B) as [id R]. rewrite R.
  pose proof (well_formed_spec s W) as (_ & _ & _ & Wc & Wp).
  unfold awaiting_quiz_selection in A. apply andb_true_iff in A.
  destruct A as [_ P]. apply negb_true_iff in P.
  destruct (Wp P) as [I _].
  assert (C : quiz_completed s = false).
  { destruct (quiz_completed s); [|reflexivity]. destruct Wc; congruence. }
  unfold in_progress. simpl. rewrite C. specialize (F (Some id)).
  split; [|exact I]. now destruct (fetched i (Some id)).
Qed.

(** ** The end screen and the blocked session *)

Lemma run_completed (i : run_input) (s : session_state) :
  well_formed s = true -> completed s = true ->
  run i s = end_screen i (s, [st_title "Quiz App"]).
Proof.
  unfold completed. intros W C.
  pose proof (well_formed_spec s W) as (_ & _ & U & Wc & _).
  destruct (Wc C) as [P _].
  unfold run, main. unfold bind at 1. simpl.
  unfold bind at 1. rewrite enter_username_named by auto.
  unfold bind at 1. rewrite select_quiz_started by auto.
  unfold bind at 1. rewrite display_questions_hidden; [reflexivity|].
  unfold in_progress. now rewrite C, andb_false_r.
Qed.

(** A started quiz without questions shows no step at all, whatever the
    input of the execution. *)
Lemma run_blocked (i : run_input) (s : session_state) :
  truthy_str (username s) = true -> proceed_to_quiz s = true ->
  questions s = [] -> quiz_completed s = false ->
  run i s = (Return tt, (s, [st_title "Quiz App"])).
Proof.
  intros U P Q C. unfold run, main. unfold bind at 1. simpl.
  unfold bind at 1. rewrite enter_username_named by auto.
  unfold bind at 1. rewrite select_quiz_started by auto.
  unfold bind at 1. rewrite display_questions_hidden.
  - now rewrite end_screen_not_completed.
  - unfold in_progress. now rewrite Q, andb_false_r.
Qed.

(** ** Sessions driven forward only *)

Lemma len_snoc {A : Type} (l : list A) (a : A) : len (l ++ [a]) = len l + 1.
Proof. unfold len. rewrite length_app. simpl. lia. Qed.

Lemma enter_username_forward (i : run_input) :
  stable forward_invariant (enter_username i).
Proof.
  intros [s o] [W L]. split; [now apply (enter_username_well_formed i (s, o))|].
  simpl in *. unfold enter_username, bind, get. simpl.
  destruct (truthy_str (username s)); simpl; [exact L|].
  destruct (truthy_str (text_input i)); exact L.
Qed.

Lemma select_quiz_forward (i : run_input) :
  stable forward_invariant (select_quiz i).
Proof.
  intros [s o] [W L]. split; [now apply (select_quiz_well_formed i (s, o))|].
  simpl in *. pose proof (well_formed_spec s W) as (_ & _ & _ & Wc & Wp).
  unfold select_quiz, bind, get. simpl.
  destruct (truthy_str (username s)); simpl; [|exact L].
  destruct (proceed_to_quiz s) eqn:P; simpl; [exact L|].
  unfold fetch_quizzes.
  destruct (select_quizzes i) as [quizzes | e]; simpl; [|exact L].
  destruct (truthy_list quizzes); simpl; [|exact L].
  destruct (match st_selectbox i _ with Some _ => _ | None => _ end) as [id|];
    simpl; [|exact L].
  destruct (st_button i Proceed); simpl; [|exact L].
  destruct (Wp eq_refl) as [I A].
  assert (C : quiz_completed s = false).
  { destruct (quiz_completed s); [|reflexivity]. destruct Wc; congruence. }
  unfold fetch_questions.
  destruct (select_questions i (Some id)); simpl;
    unfold log_matches_cursor; simpl; now rewrite C, A, I.
Qed.

Lemma display_questions_forward (i : run_input) :
  forward_only i -> stable forward_invariant (display_questions i).
Proof.
  intros [B M] [s o] [W L].
  split; [now apply (display_questions_well_formed i (s, o))|].
  simpl in *.
  destruct (in_progress s) eqn:P; [|now rewrite display_questions_hidden].
  pose proof (in_progress_cursor s W P) as C.
  unfold display_questions, bind at 1, get. simpl.
  unfold in_progress in P. rewrite P. simpl.
  destruct (getitem_some (questions s) _ C) as [q G]. rewrite G.
  unfold bind at 1. simpl. unfold bind at 1. simpl. unfold bind at 1. simpl.
  rewrite navigation_buttons_cases.
  rewrite !andb_true_iff, negb_true_iff in P. destruct P as [_ Pc].
  assert (B' : st_button i Previous = false).
  { unfold st_button. destruct (clicked i) as [[]|]; try reflexivity. congruence. }
  rewrite B', andb_false_r.
  unfold log_matches_cursor in *. rewrite Pc in L.
  destruct (current_question_index s <? len (questions s) - 1) eqn:E.
  - destruct (st_button i Next); [destruct (truthy_str _)|]; simpl;
      rewrite ?Pc; try exact L.
    rewrite len_snoc. lia.
  - apply Z.ltb_ge in E.
    destruct (st_button i Submit); [destruct (truthy_str _)|]; simpl;
      rewrite ?Pc; try exact L.
    rewrite (submit_ok i _ _ _ s _ M). simpl. rewrite len_snoc. lia.
Qed.

Lemma end_screen_forward (i : run_input) :
  stable forward_invariant (end_screen i).
Proof.
  intros [s o] [W L]. split; [now apply (end_screen_well_formed i (s, o))|].
  simpl in *. unfold end_screen, bind, get. simpl.
  destruct (quiz_completed s) eqn:C; simpl; [|exact L].
  destruct (st_button i Retake_Quiz); simpl; [reflexivity|].
  destruct (st_button i Exit); simpl; [reflexivity | exact L].
Qed.

Lemma state_after_forward (i : run_input) (s : session_state) :
  forward_only i -> forward_invariant s -> forward_invariant (state_after i s).
Proof.
  intros F I. unfold state_after, run.
  cut (stable forward_invariant (main i)); [intros H; now apply (H (s, [])) |].
  unfold main.
  apply stable_bind; [apply stable_emit | intros _].
  apply stable_bind; [apply enter_username_forward | intros _].
  apply stable_bind; [apply select_quiz_forward | intros _].
  apply stable_bind; [now apply display_questions_forward | intros _].
  apply end_screen_forward.
Qed.

Lemma Forall_prefix {A : Type} (P : A -> Prop) (l : list A) :
  Forall P l -> forall n, Forall P (firstn n l).
Proof.
  induction 1 as [|a l Ha _ IH]; intros [|n]; simpl; constructor; auto.
Qed.

Lemma run_all_forward (l : list run_input) :
  Forall forward_only l ->
  forall s, forward_invariant s -> forward_invariant (run_all l s).
Proof.
  induction 1 as [|i l F _ IH]; intros s I; simpl; [exact I|].
  apply IH. now apply state_after_forward.
Qed.

(** ** Submitting and the exceptions of an execution *)

(** "Submit" at the last question with a rationale, when the model answers
    every call. *)
Lemma run_submit (i : run_input) (s : session_state) (q : question_data) :
  well_formed s = true -> in_progress s = true ->
  getitem (questions s) (current_question_index s) = Some q ->
  current_question_index s = len (questions s) - 1 ->
  clicked i = Some Submit ->
  strip (text_area i) <> "" ->
  model_answers i ->
  let log := answers s ++ [entry_of i q] in
  let scores := graded (response_text i) 0 log in
  run i s
  = (Rerun,
     (set_quiz_completed true (set_total_score (mean scores) (set_answers log s)),
      (question_header s q ++ reports (response_text i) 0 log)
        ++ [log_report i (selected_quiz s) (username s) log (mean scores)])).
Proof.
  intros W P G C B R M log scores.
  rewrite (run_in_progress i s q W P G), navigation_buttons_cases.
  rewrite !(st_button_clicked i Submit) by exact B. simpl. rewrite andb_false_r.
  assert (L : (current_question_index s <? len (questions s) - 1) = false)
    by (apply Z.ltb_ge; lia).
  rewrite L. apply truthy_str_nonempty in R. rewrite R.
  now rewrite (submit_ok i _ _ _ s _ M).
Qed.

Lemma enter_username_never_raises (i : run_input) (e : exn) :
  never_raises e (enter_username i).
Proof.
  intros [s o]. unfold enter_username, bind, get. simpl.
  destruct (truthy_str (username s)); simpl; [discriminate|].
  destruct (truthy_str (text_input i)); discriminate.
Qed.

Lemma select_quiz_never_divides (i : run_input) :
  never_raises ZeroDivisionError (select_quiz i).
Proof.
  intros [s o]. unfold select_quiz, bind, get. simpl.
  destruct (truthy_str (username s) && negb (proceed_to_quiz s)); simpl;
    [|discriminate].
  unfold fetch_quizzes. destruct (select_quizzes i) as [quizzes | msg]; simpl;
    [|discriminate].
  destruct (truthy_list quizzes); simpl; [|discriminate].
  destruct (match st_selectbox i _ with Some _ => _ | None => _ end); simpl;
    [|discriminate].
  destruct (st_button i Proceed); simpl; [|discriminate].
  unfold fetch_questions. destruct (select_questions i _); discriminate.
Qed.

Lemma display_questions_never_divides (i : run_input) :
  never_raises ZeroDivisionError (display_questions i).
Proof.
  intros [s o]. unfold display_questions, bind at 1, get. simpl.
  destruct (proceed_to_quiz s && truthy_list (questions s) && negb (quiz_completed s));
    simpl; [|discriminate].
  unfold bind at 1.
  destruct (getitem (questions s) (current_question_index s)) as [q|]; simpl;
    [|discriminate].
  unfold bind at 1. simpl. unfold bind at 1. simpl.
  rewrite navigation_buttons_cases.
  destruct ((current_question_index s >? 0) && st_button i Previous); [discriminate|].
  destruct (current_question_index s <? len (questions s) - 1).
  - destruct (st_button i Next); [destruct (truthy_str _)|]; discriminate.
  - destruct (st_button i Submit); [destruct (truthy_str _)|]; try discriminate.
    match goal with |- context [submit i ?a ?b ?c ?w] =>
      pose proof (submit_outcome i a b c w) as E;
      destruct (fst (submit i a b c w)) as [[] | | []] end;
      try discriminate; contradiction.
Qed.

Lemma end_screen_never_raises (i : run_input) (e : exn) :
  never_raises e (end_screen i).
Proof.
  intros [s o]. unfold end_screen, bind, get. simpl.
  destruct (quiz_completed s); simpl; [|discriminate].
  destruct (st_button i Retake_Quiz); simpl; [discriminate|].
  destruct (st_button i Exit); discriminate.
Qed.

(** ** Properties of the specification *)

(** C1, as the program has it.  In a session started from the initial state
    and driven by executions in which "Previous" is never pressed and the
    model answers every grading call, after every execution the number of
    recorded answers is at most the number of questions of the session: it
    is the position of the cursor while the quiz is not completed, and the
    number of questions once it is. *)
Theorem forward_only_log_bounded (l : list run_input) (n : nat) :
  Forall forward_only l ->
  let s := run_all (firstn n l) initial_state in
  len (answers s) <= len (questions s)
  /\ (quiz_completed s = false -> len (answers s) = current_question_index s)
  /\ (quiz_completed s = true -> len (answers s) = len (questions s)).
Proof.
  intros F s.
  assert (I : forward_invariant s).
  { apply run_all_forward.
    - now apply Forall_prefix.
    - split; reflexivity. }
  destruct I as [W L]. unfold log_matches_cursor in L.
  pose proof (well_formed_spec s W) as (I0 & I1 & _).
  destruct (quiz_completed s).
  - repeat split; try lia; congruence.
  - repeat split; try congruence.
    assert (0 <= len (questions s)) by (unfold len; lia). lia.
Qed.

(** C2.  In a session that shows a question, pressing "Next" (offered before
    the last question) or "Submit" (offered at the last question) with a
    rationale that is empty once stripped shows the missing-rationale warning
    and leaves the whole session state as it was; with a non-empty stripped
    rationale exactly one entry, for the question under the cursor, is
    appended to the answers, and "Next" also moves the cursor one question
    forward. *)
Theorem rationale_required (i : run_input) (s : session_state) (q : question_data)
    (b : button_label) :
  well_formed s = true -> in_progress s = true ->
  getitem (questions s) (current_question_index s) = Some q ->
  clicked i = Some b ->
  (b = Next /\ current_question_index s < len (questions s) - 1)
  \/ (b = Submit /\ current_question_index s = len (questions s) - 1) ->
  (strip (text_area i) = "" ->
     run i s = (Return tt, (s, question_header s q ++ [missing_rationale b])))
  /\ (strip (text_area i) <> "" ->
      answers (state_after i s) = answers s ++ [entry_of i q]
      /\ (b = Next ->
          state_after i s
          = set_current_question_index (current_question_index s + 1)
              (set_answers (answers s ++ [entry_of i q]) s)
          /\ fst (run i s) = Rerun)
      /\ (b = Submit ->
          current_question_index (state_after i s) = current_question_index s)).
Proof.
  intros W P G B C.
  unfold state_after. rewrite (run_in_progress i s q W P G).
  rewrite navigation_buttons_cases.
  rewrite !(st_button_clicked i b) by exact B.
  fold (entry_of i q).
  destruct C as [[-> C] | [-> C]]; simpl; rewrite andb_false_r.
  - apply Z.ltb_lt in C. rewrite C. split; intros R.
    + apply truthy_str_empty in R. now rewrite R.
    + apply truthy_str_nonempty in R. rewrite R. simpl.
      repeat split; try reflexivity; discriminate.
  - assert (L : (current_question_index s <? len (questions s) - 1) = false)
      by (apply Z.ltb_ge; lia).
    rewrite L. split; intros R.
    + apply truthy_str_empty in R. now rewrite R.
    + apply truthy_str_nonempty in R. rewrite R.
      unfold entry_of.
      match goal with |- context [submit i ?x ?y ?z (?s, ?o)] =>
        destruct (submit_state i x y z s o) as [E | [t [E _]]] end;
        rewrite E; simpl; repeat split; try reflexivity; discriminate.
Qed.

(** C3.  When "Submit" is pressed at the last question with a rationale and
    the model answers every grading call, the scores are those of the
    recorded entries in their order, and the total score stored in the
    session is their sum divided by their number, as a binary64 number and
    without any rounding step.  In particular, with one entry recorded
    before, when the responses are "9" and "7" and [float] reads them as 9
    and 7, the scores are [9; 7] and the total score is 8. *)
Theorem total_score_is_mean (i : run_input) (s : session_state) (q : question_data) :
  well_formed s = true -> in_progress s = true ->
  getitem (questions s) (current_question_index s) = Some q ->
  current_question_index s = len (questions s) - 1 ->
  clicked i = Some Submit ->
  strip (text_area i) <> "" ->
  model_answers i ->
  let log := answers s ++ [entry_of i q] in
  let scores := graded (response_text i) 0 log in
  answers (state_after i s) = log
  /\ length scores = length log
  /\ scores <> []
  /\ average_score scores = inr (total_score (state_after i s))
  /\ total_score (state_after i s)
     = (py_sum scores / float_of_int (len scores))%float
  /\ (forall a1,
        answers s = [a1] ->
        response_text i 0 (prompt_of_answer a1) = "9" ->
        response_text i 1 (prompt_of_answer (entry_of i q)) = "7" ->
        float_of_str "9" = Some 9%float ->
        float_of_str "7" = Some 7%float ->
        scores = [9%float; 7%float]
        /\ total_score (state_after i s) = 8%float).
Proof.
  intros W P G C B R M log scores.
  unfold state_after. rewrite (run_submit i s q W P G C B R M). simpl.
  fold log. fold scores.
  assert (N : scores <> []) by apply graded_snoc_nonempty.
  split; [reflexivity|]. split; [apply graded_length|]. split; [exact N|].
  split; [now apply average_score_nonempty|]. split; [reflexivity|].
  intros a1 A R0 R1 F9 F7.
  assert (E : scores = [9%float; 7%float]).
  { subst scores log. rewrite A. simpl. unfold score_of_response.
    rewrite R0, R1.
    change (strip "9") with "9". change (strip "7") with "7".
    now rewrite F9, F7. }
  split; [exact E|]. now rewrite E.
Qed.

(** C4.  When the model answers every grading call, the loop grades every
    recorded entry and returns one score per entry, in the order of the
    entries.  The score of an entry whose response text, once stripped, is
    not a floating-point number is 0 and an error naming the response is
    written to the page, after which the loop goes on with the next entries;
    the score of an entry whose response parses is the parsed value itself,
    whatever its size. *)
Theorem unparsable_response_scores_zero (i : run_input) (l : list answer)
    (s : session_state) (o : list ui) :
  model_answers i ->
  let scores := graded (response_text i) 0 l in
  for_answers i 0 l [] (s, o)
  = (Return scores, (s, o ++ reports (response_text i) 0 l))
  /\ length scores = length l
  /\ forall n a, nth_error l n = Some a ->
       let t := response_text i n (prompt_of_answer a) in
       match float_of_str (strip t) with
       | None =>
           nth_error scores n = Some 0%float
           /\ In (st_error ("Failed to parse score from Groq response: " ++ t))
                 (reports (response_text i) 0 l)
       | Some v => nth_error scores n = Some v
       end.
Proof.
  intros M scores. split; [|split].
  - now rewrite (for_answers_ok i _ M).
  - apply graded_length.
  - intros n a E t.
    pose proof (graded_nth (response_text i) l 0 n a E) as N.
    pose proof (fun u => reports_nth (response_text i) l 0 n a u E) as R.
    simpl in N, R. fold t in N, R.
    unfold score_of_response in N. unfold report_of_response in R.
    destruct (float_of_str (strip t)); [exact N|].
    split; [exact N|]. apply R. now left.
Qed.

(** C5, as the program has it.  On the end screen, "Retake Quiz" sets the
    cursor to 0, empties the recorded answers, sets the total score to 0 and
    clears both the completion flag and the started flag, leaving the name,
    the selected quiz and the stored question list as they were.  The session
    is then back on the quiz selection screen, not on a question; when
    "Proceed" is pressed there, the stored question list is replaced by the
    list the database returns at that moment. *)
Theorem retake_returns_to_quiz_selection (i : run_input) (s : session_state) :
  well_formed s = true -> completed s = true ->
  clicked i = Some Retake_Quiz ->
  fst (run i s) = Rerun
  /\ state_after i s
     = mk_state (username s) (selected_quiz s) (questions s) 0 [] false 0%float false
  /\ in_progress (state_after i s) = false
  /\ awaiting_quiz_selection (state_after i s) = true
  /\ forall i' quizzes,
       select_quizzes i' = Ok quizzes -> quizzes <> [] ->
       clicked i' = Some Proceed ->
       exists id,
         questions (state_after i' (state_after i s)) = fetched i' (Some id).
Proof.
  intros W C B.
  pose proof (state_after_well_formed i s W) as W'.
  pose proof (well_formed_spec s W) as (_ & _ & U & Wc & _).
  destruct (Wc C) as [P _]. specialize (U P).
  assert (E : run i s
              = (Rerun,
                 (mk_state (username s) (selected_quiz s) (questions s) 0 [] false
                           0%float false,
                  [st_title "Quiz App";
                   st_success "Quiz completed! Thank you for participating.";
                   st_write_average (total_score s)]))).
  { rewrite (run_completed i s W C). unfold end_screen, bind, get. simpl.
    unfold completed in C. rewrite C. simpl.
    now rewrite (st_button_clicked i Retake_Quiz) by exact B. }
  unfold state_after in *. rewrite E in *. simpl fst in *. simpl snd in *.
  assert (A : awaiting_quiz_selection
                (mk_state (username s) (selected_quiz s) (questions s) 0 [] false
                          0%float false) = true).
  { unfold awaiting_quiz_selection. simpl. now rewrite U. }
  split; [reflexivity|]. split; [reflexivity|]. split; [reflexivity|].
  split; [exact A|].
  intros i' quizzes Q N B'.
  destruct (run_proceed i' _ quizzes W' A Q N B') as [id R].
  exists id. unfold state_after in R. now rewrite R.
Qed.

(** C6, what the program does.  On the quiz selection screen, when
    "Proceed" is pressed and the database returns no question for the
    selected quiz, nothing is reported, the quiz is marked as started with an
    empty question list, and the session is neither on the quiz selection
    screen nor on a question nor on the end screen: every later execution,
    whatever its input, writes the title only and leaves the session as it
    is. *)
Theorem proceed_without_questions_blocks_session (i : run_input)
    (s : session_state) (quizzes : list (Z * string)) :
  well_formed s = true -> awaiting_quiz_selection s = true ->
  select_quizzes i = Ok quizzes -> quizzes <> [] ->
  clicked i = Some Proceed ->
  (forall id, select_questions i id = Ok []) ->
  let s' := state_after i s in
  run i s = (Return tt, (s', [st_title "Quiz App"]))
  /\ proceed_to_quiz s' = true
  /\ questions s' = []
  /\ awaiting_quiz_selection s' = false
  /\ in_progress s' = false
  /\ completed s' = false
  /\ forall i', run i' s' = (Return tt, (s', [st_title "Quiz App"])).
Proof.
  intros W A Q N B F s'.
  unfold awaiting_quiz_selection in A. apply andb_true_iff in A.
  destruct A as [U P]. apply negb_true_iff in P.
  pose proof (well_formed_spec s W) as (_ & _ & _ & Wc & _).
  assert (C : quiz_completed s = false).
  { destruct (quiz_completed s); [|reflexivity]. destruct Wc; congruence. }
  destruct (selected_quiz_found i quizzes N) as [id E].
  assert (R : run i s
              = (Return tt,
                 (set_questions []
                    (set_proceed_to_quiz true (set_selected_quiz (Some id) s)),
                  [st_title "Quiz App"]))).
  { unfold run, main. unfold bind at 1. simpl.
    unfold bind at 1. rewrite enter_username_named by exact U.
    unfold bind at 1.
    rewrite (select_quiz_proceed i s _ quizzes id U P Q N B E).
    unfold fetched. rewrite F. simpl.
    unfold bind at 1. rewrite display_questions_hidden
      by reflexivity.
    now rewrite end_screen_not_completed. }
  subst s'. unfold state_after. rewrite R. simpl fst. simpl snd.
  unfold awaiting_quiz_selection, in_progress, completed. simpl.
  rewrite U, C. repeat split.
  intros i'. now apply run_blocked.
Qed.

(** C7, as the program has it.  The average of an empty list of scores is
    not computed: the division of line 217 fails with [ZeroDivisionError],
    and it fails for the empty list only. *)
Theorem average_score_empty :
  average_score [] = inl ZeroDivisionError
  /\ forall scores e, average_score scores = inl e <-> (scores = [] /\ e = ZeroDivisionError).
Proof.
  split; [reflexivity|]. intros scores e. split.
  - intros E. destruct scores as [|x scores].
    + inversion E. now split.
    + rewrite average_score_nonempty in E by discriminate. discriminate.
  - intros [-> ->]. reflexivity.
Qed.

(** C8.  In a session that shows a question, "Previous" moves the cursor one
    question back when the cursor is past the first question and does nothing
    at the first question; in both cases the recorded answers are exactly
    those recorded before. *)
Theorem previous_moves_cursor_only (i : run_input) (s : session_state) :
  well_formed s = true -> in_progress s = true ->
  clicked i = Some Previous ->
  answers (state_after i s) = answers s
  /\ (0 < current_question_index s ->
      state_after i s
      = set_current_question_index (current_question_index s - 1) s
      /\ fst (run i s) = Rerun)
  /\ (current_question_index s = 0 ->
      state_after i s = s /\ fst (run i s) = Return tt).
Proof.
  intros W P B.
  destruct (getitem_some (questions s) _ (in_progress_cursor s W P)) as [q G].
  unfold state_after. rewrite (run_in_progress i s q W P G).
  rewrite navigation_buttons_cases.
  rewrite !(st_button_clicked i Previous) by exact B. simpl.
  rewrite andb_true_r.
  destruct (current_question_index s >? 0) eqn:C; rewrite Z.gtb_ltb in C; simpl.
  - apply Z.ltb_lt in C. repeat split; try reflexivity; lia.
  - apply Z.ltb_ge in C.
    destruct (current_question_index s <? len (questions s) - 1); simpl;
      repeat split; try reflexivity; lia.
Qed.

(** C9.  When "Submit" is pressed at the last question with a rationale, the
    model answers every grading call and the insertion into [quiz_results]
    fails, the failure is written to the page as an error, the quiz is
    completed all the same, and the total score is the mean of the scores:
    the session ends in the state it ends in whatever the insertion does. *)
Theorem persistence_failure_is_reported (i : run_input) (s : session_state)
    (q : question_data) (e : string) :
  well_formed s = true -> in_progress s = true ->
  getitem (questions s) (current_question_index s) = Some q ->
  current_question_index s = len (questions s) - 1 ->
  clicked i = Some Submit ->
  strip (text_area i) <> "" ->
  model_answers i ->
  let log := answers s ++ [entry_of i q] in
  let total := mean (graded (response_text i) 0 log) in
  insert_quiz_results i (selected_quiz s) (username s) log total = Exc e ->
  fst (run i s) = Rerun
  /\ In (st_error ("Error logging quiz results: " ++ e)) (page_after i s)
  /\ completed (state_after i s) = true
  /\ total_score (state_after i s) = total
  /\ forall f, state_after (set_insert_quiz_results f i) s = state_after i s.
Proof.
  intros W P G C B R M log total F.
  unfold state_after, page_after. rewrite (run_submit i s q W P G C B R M).
  cbn [fst snd]. fold log. fold total.
  split; [reflexivity|]. split.
  { apply in_or_app. right. unfold log_report. rewrite F. now left. }
  split; [reflexivity|]. split; [reflexivity|].
  intros f.
  now rewrite (run_submit (set_insert_quiz_results f i) s q W P G C B R M).
Qed.

(** C10.  No execution of [main], from any session state and with any
    input, ends with a division by zero: when the average is computed the
    list of recorded answers, and so the list of scores, is not empty,
    because "Submit" appends its entry before grading starts. *)
Theorem scoring_never_divides_by_zero (i : run_input) (s : session_state) :
  fst (run i s) <> Raise ZeroDivisionError
  /\ forall q a r o,
       answers (fst (snd (submit i q a r (s, o)))) = answers s ++ [mk_answer q a r]
       /\ forall scores w',
            for_answers i 0 (answers s ++ [mk_answer q a r]) [] (s, o)
            = (Return scores, w') ->
            scores <> [] /\ average_score scores = inr (mean scores).
Proof.
  split.
  - unfold run. revert s. cut (never_raises ZeroDivisionError (main i)).
    { intros H s. apply H. }
    unfold main.
    apply never_raises_bind; [intros w; discriminate | intros _].
    apply never_raises_bind; [apply enter_username_never_raises | intros _].
    apply never_raises_bind; [apply select_quiz_never_divides | intros _].
    apply never_raises_bind; [apply display_questions_never_divides | intros _].
    apply end_screen_never_raises.
  - intros q a r o. split.
    + destruct (submit_state i q a r s o) as [E | [t [E _]]]; now rewrite E.
    + intros scores w' F. apply for_answers_length in F.
      rewrite length_app in F. simpl in F.
      assert (N : scores <> []) by (destruct scores; [simpl in F; lia | discriminate]).
      split; [exact N | now apply average_score_nonempty].
Qed.

(** ** Further properties: the rationale test *)

Lemma rstrip_empty (s : string) : rstrip s = "" <-> all_space s = true.
Proof.
  induction s as [|c s IH]; simpl; [tauto|].
  destruct (rstrip s) as [|c' r] eqn:E.
  - destruct (isspace c); simpl.
    + split; intros _; [now apply IH | reflexivity].
    + split; discriminate.
  - split; [discriminate|]. intros H. apply andb_true_iff in H.
    destruct H as [_ H]. apply IH in H. discriminate.
Qed.

Lemma lstrip_all_space (s : string) : all_space (lstrip s) = all_space s.
Proof.
  induction s as [|c s IH]; simpl; [reflexivity|].
  destruct (isspace c) eqn:E; simpl; [exact IH | now rewrite E].
Qed.

(** X1.  The test [not rationale.strip()] of "Next" and "Submit" holds
    exactly for the rationales made of whitespace characters only (the empty
    rationale among them): one other character anywhere makes the rationale
    acceptable. *)
Theorem blank_rationale_iff_all_space (r : string) :
  negb (truthy_str (strip r)) = all_space r.
Proof.
  unfold strip. rewrite <- (lstrip_all_space r).
  destruct (all_space (lstrip r)) eqn:A.
  - apply rstrip_empty in A. now rewrite A.
  - destruct (rstrip (lstrip r)) eqn:E; [|reflexivity].
    apply rstrip_empty in E. congruence.
Qed.

(** ** Further properties: the catalogue of quizzes *)

Lemma dict_get_set_same {V : Type} (d : list (string * V)) (k : string) (v : V) :
  dict_get (dict_set d k v) k = Some v.
Proof.
  induction d as [|[k' v'] d IH]; simpl.
  - now rewrite String.eqb_refl.
  - destruct (String.eqb k' k) eqn:E; simpl; now rewrite E.
Qed.

Lemma dict_get_set_other {V : Type} (d : list (string * V)) (k k' : string) (v : V) :
  k' <> k -> dict_get (dict_set d k v) k' = dict_get d k'.
Proof.
  intros N. induction d as [|[k0 v0] d IH]; simpl.
  - destruct (String.eqb k k') eqn:E; [|reflexivity].
    apply String.eqb_eq in E. congruence.
  - destruct (String.eqb k0 k) eqn:E; simpl.
    + apply String.eqb_eq in E. subst k0.
      destruct (String.eqb k k') eqn:E'; [|reflexivity].
      apply String.eqb_eq in E'. congruence.
    + destruct (String.eqb k0 k'); [reflexivity | exact IH].
Qed.

Lemma dict_set_keys {V : Type} (d : list (string * V)) (k : string) (v : V) :
  dict_keys (dict_set d k v)
  = if existsb (String.eqb k) (dict_keys d) then dict_keys d else dict_keys d ++ [k].
Proof.
  induction d as [|[k' v'] d IH]; simpl; [reflexivity|].
  rewrite (String.eqb_sym k k').
  destruct (String.eqb k' k) eqn:E; simpl; [reflexivity|].
  rewrite IH. now destruct (existsb (String.eqb k) (dict_keys d)).
Qed.

Lemma existsb_eqb_In (k : string) (l : list string) :
  existsb (String.eqb k) l = true <-> In k l.
Proof.
  rewrite existsb_exists. split.
  - intros [x [I E]]. apply String.eqb_eq in E. now subst.
  - intros I. exists k. split; [exact I | apply String.eqb_refl].
Qed.

Lemma dict_set_keys_NoDup {V : Type} (d : list (string * V)) (k : string) (v : V) :
  NoDup (dict_keys d) -> NoDup (dict_keys (dict_set d k v)).
Proof.
  intros N. rewrite dict_set_keys.
  destruct (existsb (String.eqb k) (dict_keys d)) eqn:E; [exact N|].
  apply NoDup_app; [exact N | repeat constructor; intros [] |].
  intros x I [<- | []]. apply existsb_eqb_In in I. congruence.
Qed.

Lemma dict_set_keys_In {V : Type} (d : list (string * V)) (k k' : string) (v : V) :
  In k' (dict_keys (dict_set d k v)) <-> In k' (dict_keys d) \/ k' = k.
Proof.
  rewrite dict_set_keys.
  destruct (existsb (String.eqb k) (dict_keys d)) eqn:E.
  - apply existsb_eqb_In in E. split; [now left|]. intros [I | ->]; assumption.
  - rewrite in_app_iff. simpl. split; intros [I | I]; auto.
    destruct I as [<- | []]. now right.
Qed.

(** The dictionary built from the catalogue [done ++ quizzes], the part
    [done] being the dictionary [d] already. *)
Lemma quiz_options_fold (quizzes : list (Z * string)) :
  forall d : list (string * Z),
    let d' := fold_left (fun d quiz => dict_set d (snd quiz) (fst quiz)) quizzes d in
    (NoDup (dict_keys d) -> NoDup (dict_keys d'))
    /\ (forall t, In t (dict_keys d') <-> In t (dict_keys d) \/ In t (map snd quizzes))
    /\ (forall t, ~ In t (map snd quizzes) -> dict_get d' t = dict_get d t)
    /\ (forall t id, dict_get d' t = Some id ->
                     dict_get d t = Some id \/ In (id, t) quizzes).
Proof.
  clear float_of_str.
  induction quizzes as [|[id0 t0] quizzes IH]; intros d; simpl.
  - repeat split; tauto.
  - destruct (IH (dict_set d t0 id0)) as (N & K & G & M). simpl in *.
    split; [|split; [|split]].
    + intros H. now apply N, dict_set_keys_NoDup.
    + intros t. rewrite K, dict_set_keys_In. intuition congruence.
    + intros t H. rewrite G by tauto. apply dict_get_set_other. intros ->. tauto.
    + intros t id E. destruct (M t id E) as [E' | I]; [|now right; right].
      destruct (string_dec t t0) as [-> | D].
      * rewrite dict_get_set_same in E'. inversion E'. right. now left.
      * rewrite dict_get_set_other in E' by exact D. now left.
Qed.

(** X2.  The selection box built from the catalogue offers every title of
    the catalogue, each title once, and the identifier attached to a title is
    the identifier of a quiz of the catalogue that bears this title. *)
Theorem quiz_options_titles (quizzes : list (Z * string)) :
  NoDup (dict_keys (quiz_options_of quizzes))
  /\ (forall t, In t (dict_keys (quiz_options_of quizzes)) <-> In t (map snd quizzes))
  /\ (forall t id, dict_get (quiz_options_of quizzes) t = Some id -> In (id, t) quizzes).
Proof.
  clear float_of_str.
  destruct (quiz_options_fold quizzes []) as (N & K & _ & M). simpl in *.
  split; [apply N; constructor|]. split.
  - intros t. rewrite K. tauto.
  - intros t id E. destruct (M t id E) as [E' | I]; [discriminate | exact I].
Qed.

(** X3.  When several quizzes of the catalogue bear the same title, the
    title designates the last of them: the quizzes before it cannot be
    selected. *)
Theorem quiz_options_last_wins (before after : list (Z * string)) (id : Z)
    (title : string) :
  ~ In title (map snd after) ->
  dict_get (quiz_options_of (before ++ (id, title) :: after)) title = Some id.
Proof.
  intros N. unfold quiz_options_of. rewrite fold_left_app. simpl.
  destruct (quiz_options_fold after
              (dict_set (fold_left (fun d quiz => dict_set d (snd quiz) (fst quiz))
                                   before []) title id)) as (_ & _ & G & _).
  simpl in G. rewrite G by exact N. apply dict_get_set_same.
Qed.

(** ** Further properties: one execution, case by case *)

Lemma bind_assoc {A B C : Type} (m : Script A) (f : A -> Script B)
    (g : B -> Script C) (w : world) :
  bind (bind m f) g w = bind m (fun a => bind (f a) g) w.
Proof. unfold bind. now destruct (m w) as [[a | | e] w']. Qed.

Lemma enter_username_result (i : run_input) (s : session_state) (o : list ui) :
  exists o',
    enter_username i (s, o)
    = (Return tt,
       (if truthy_str (username s) then s else set_username (text_input i) s, o')).
Proof.
  unfold enter_username, bind, get. simpl.
  destruct (truthy_str (username s)); simpl; [now exists o|].
  destruct (truthy_str (text_input i)); simpl; eexists; reflexivity.
Qed.

(** Step 2 always runs to its end; it touches the selected quiz, and with
    "Proceed" the started flag and the questions. *)
Lemma select_quiz_result (i : run_input) (s : session_state) (o : list ui) :
  exists s' o',
    select_quiz i (s, o) = (Return tt, (s', o'))
    /\ username s' = username s
    /\ current_question_index s' = current_question_index s
    /\ answers s' = answers s
    /\ quiz_completed s' = quiz_completed s
    /\ total_score s' = total_score s
    /\ (awaiting_quiz_selection s = false -> s' = s)
    /\ (st_button i Proceed = false ->
        proceed_to_quiz s' = proceed_to_quiz s /\ questions s' = questions s).
Proof.
  unfold select_quiz, bind at 1, get. simpl. unfold awaiting_quiz_selection.
  destruct (truthy_str (username s) && negb (proceed_to_quiz s)) eqn:A; simpl.
  2:{ exists s, o. repeat split. }
  unfold bind at 1, fetch_quizzes.
  assert (H : forall o1 quizzes,
             exists s' o',
               (if truthy_list quizzes
                then
                  let quiz_options := quiz_options_of quizzes in
                  let selected_quiz_title := st_selectbox i (dict_keys quiz_options) in
                  quiz_id <- of_option KeyError
                               match selected_quiz_title with
                               | Some title => dict_get quiz_options title
                               | None => None
                               end ;;
                  modify (set_selected_quiz (Some quiz_id)) ;;
                  when (st_button i Proceed)
                    (modify (set_proceed_to_quiz true) ;;
                     s0 <- get ;;
                     questions <- fetch_questions i (selected_quiz s0) ;;
                     modify (set_questions questions))
                else emit (st_warning "No quizzes available.")) (s, o1)
               = (Return tt, (s', o'))
               /\ username s' = username s
               /\ current_question_index s' = current_question_index s
               /\ answers s' = answers s
               /\ quiz_completed s' = quiz_completed s
               /\ total_score s' = total_score s
               /\ (true = false -> s' = s)
               /\ (st_button i Proceed = false ->
                   proceed_to_quiz s' = proceed_to_quiz s
                   /\ questions s' = questions s)).
  { intros o1 quizzes. destruct quizzes as [|x quizzes].
    - simpl. eexists _, _. repeat split; discriminate.
    - simpl truthy_list. cbv iota zeta.
      destruct (selected_quiz_found i (x :: quizzes)) as [id E]; [discriminate|].
      unfold bind at 1. rewrite E. simpl. unfold bind at 1. simpl.
      destruct (st_button i Proceed); simpl.
      + unfold bind at 1. simpl. unfold bind at 1, get. simpl.
        unfold bind at 1, fetch_questions.
        destruct (select_questions i (Some id)); simpl;
          eexists _, _; repeat split; discriminate.
      + eexists _, _. repeat split; discriminate. }
  destruct (select_quizzes i) as [quizzes | e]; simpl; [apply H|].
  unfold bind. simpl. eexists _, _. repeat split; discriminate.
Qed.

(** Steps 1 and 2 never stop an execution; they leave the cursor, the
    answers, the completion flag and the total score alone, and a started
    session is not touched at all. *)
Lemma prelude_frame (i : run_input) (s : session_state) :
  let s1 := prelude_state i s in
  fst (prelude i s) = Return tt
  /\ (well_formed s = true -> well_formed s1 = true)
  /\ username s1 = (if truthy_str (username s) then username s else text_input i)
  /\ current_question_index s1 = current_question_index s
  /\ answers s1 = answers s
  /\ quiz_completed s1 = quiz_completed s
  /\ total_score s1 = total_score s
  /\ (truthy_str (username s) = true -> proceed_to_quiz s = true -> s1 = s)
  /\ (st_button i Proceed = false ->
      proceed_to_quiz s1 = proceed_to_quiz s /\ questions s1 = questions s).
Proof.
  unfold prelude_state, prelude. cbv zeta.
  assert (W : well_formed s = true ->
              well_formed (fst (snd ((enter_username i ;; select_quiz i)
                                       (s, [st_title "Quiz App"])))) = true).
  { intros W. apply (stable_bind (fun s => well_formed s = true)); auto.
    - apply enter_username_well_formed.
    - intros _. apply select_quiz_well_formed. }
  revert W. unfold bind.
  destruct (enter_username_result i s [st_title "Quiz App"]) as [o1 E1]. rewrite E1.
  set (s0 := if truthy_str (username s) then s else set_username (text_input i) s).
  destruct (select_quiz_result i s0 o1) as (s1 & o2 & E2 & U & I & A & C & T & K & P).
  rewrite E2. simpl. intros W.
  split; [reflexivity|]. split; [exact W|].
  assert (F : current_question_index s0 = current_question_index s
              /\ answers s0 = answers s /\ quiz_completed s0 = quiz_completed s
              /\ total_score s0 = total_score s
              /\ proceed_to_quiz s0 = proceed_to_quiz s
              /\ questions s0 = questions s
              /\ username s0
                 = (if truthy_str (username s) then username s else text_input i)).
  { subst s0. destruct (truthy_str (username s)); repeat split. }
  destruct F as (F1 & F2 & F3 & F4 & F5 & F6 & F7).
  repeat split; try congruence.
  - intros Hu Hp. subst s0. rewrite Hu in *. apply K.
    unfold awaiting_quiz_selection. now rewrite Hp, andb_false_r.
  - destruct (P H). congruence.
  - destruct (P H). congruence.
Qed.

(** An execution is steps 1 and 2, then step 3, then step 4. *)
Lemma run_after_prelude (i : run_input) (s : session_state) :
  run i s = bind (display_questions i) (fun _ => end_screen i) (snd (prelude i s)).
Proof.
  pose proof (prelude_frame i s) as (R & _). unfold prelude in *.
  unfold run, main. unfold bind at 1. simpl.
  rewrite <- bind_assoc. unfold bind at 1.
  destruct ((enter_username i ;; select_quiz i) (s, [st_title "Quiz App"]))
    as [[[] | | e] w]; simpl in *; try discriminate. reflexivity.
Qed.

Lemma st_button_true (i : run_input) (b : button_label) :
  st_button i b = true -> clicked i = Some b.
Proof.
  unfold st_button. destruct (clicked i) as [b'|]; [|discriminate].
  destruct b', b; simpl; congruence.
Qed.

Lemma st_button_other (i : run_input) (b b' : button_label) :
  clicked i = Some b -> b <> b' -> st_button i b' = false.
Proof.
  intros E N. rewrite (st_button_clicked i b b' E). destruct b, b'; simpl; congruence.
Qed.

Lemma get_score_return (i : run_input) (k : nat) (q a r : string) (w : world) :
  forall v w', get_score_from_groq i k q a r w = (Return v, w') ->
               llm_complete i k (prompt_of q a r) = Ok (response_text i k (prompt_of q a r))
               /\ v = score_of_response (response_text i k (prompt_of q a r)).
Proof.
  intros v w'. unfold get_score_from_groq, response_text, score_of_response.
  destruct (llm_complete i k _) as [t | msg]; [|discriminate].
  destruct (float_of_str (strip t)); simpl; intros E; inversion E; now split.
Qed.

Lemma get_score_not_rerun (i : run_input) (k : nat) (q a r : string) (w : world) :
  forall w', get_score_from_groq i k q a r w <> (Rerun, w').
Proof.
  intros w'. unfold get_score_from_groq.
  destruct (llm_complete i k _); [|discriminate].
  destruct (float_of_str _); discriminate.
Qed.

Lemma get_score_raise (i : run_input) (k : nat) (q a r : string) (w : world) :
  forall e w', get_score_from_groq i k q a r w = (Raise e, w') ->
               exists msg, e = LLMError msg
                           /\ llm_complete i k (prompt_of q a r) = Exc msg.
Proof.
  intros e w'. unfold get_score_from_groq.
  destruct (llm_complete i k _) as [t | msg].
  - destruct (float_of_str (strip t)); discriminate.
  - intros E. inversion E. now exists msg.
Qed.

(** When the loop returns, every call was answered and the scores are those
    of the responses, in the order of the entries. *)
Lemma for_answers_return (i : run_input) (l : list answer) :
  forall k scores w r w',
    for_answers i k l scores w = (Return r, w') ->
    r = scores ++ graded (response_text i) k l
    /\ forall n a, nth_error l n = Some a ->
                   exists t, llm_complete i (k + n)%nat (prompt_of_answer a) = Ok t.
Proof.
  induction l as [|a0 l IH]; intros k scores w r w' F.
  - simpl in F. inversion F. split; [now rewrite app_nil_r|]. intros [|n] a E; discriminate.
  - simpl in F. unfold bind in F.
    destruct (get_score_from_groq i k _ _ _ w) as [[v | | e] w1] eqn:G;
      try discriminate.
    apply get_score_return in G. destruct G as [G ->].
    destruct (IH _ _ _ _ _ F) as [-> A]. split.
    + simpl. unfold prompt_of_answer. now rewrite <- app_assoc.
    + intros [|n] a E; simpl in E.
      * inversion E; subst. rewrite Nat.add_0_r. eexists. exact G.
      * destruct (A n a E) as [t T]. exists t.
        now replace (k + S n)%nat with (S k + n)%nat by lia.
Qed.

Lemma for_answers_not_rerun (i : run_input) (l : list answer) :
  forall k scores w w', for_answers i k l scores w <> (Rerun, w').
Proof.
  induction l as [|a0 l IH]; intros k scores w w'; simpl; [discriminate|].
  unfold bind.
  destruct (get_score_from_groq i k _ _ _ w) as [[v | | e] w1] eqn:G.
  - apply IH.
  - now apply get_score_not_rerun in G.
  - discriminate.
Qed.

(** When the loop is stopped, it is by the first call that fails. *)
Lemma for_answers_raise (i : run_input) (l : list answer) :
  forall k scores w e w',
    for_answers i k l scores w = (Raise e, w') ->
    exists n msg,
      e = LLMError msg
      /\ (exists a, nth_error l n = Some a
                    /\ llm_complete i (k + n)%nat (prompt_of_answer a) = Exc msg)
      /\ forall m b, (m < n)%nat -> nth_error l m = Some b ->
                     exists t, llm_complete i (k + m)%nat (prompt_of_answer b) = Ok t.
Proof.
  induction l as [|a0 l IH]; intros k scores w e w' F; simpl in F; [discriminate|].
  unfold bind in F.
  destruct (get_score_from_groq i k _ _ _ w) as [[v | | e1] w1] eqn:G.
  - apply get_score_return in G. destruct G as [G _].
    destruct (IH _ _ _ _ _ F) as (n & msg & -> & (a & E & X) & B).
    exists (S n), msg. split; [reflexivity|]. split.
    + exists a. split; [exact E|].
      now replace (k + S n)%nat with (S k + n)%nat by lia.
    + intros [|m] b Lt Eb; simpl in Eb.
      * inversion Eb; subst. rewrite Nat.add_0_r. eexists. exact G.
      * destruct (B m b) as [t T]; [lia | exact Eb |]. exists t.
        now replace (k + S m)%nat with (S k + m)%nat by lia.
  - discriminate.
  - inversion F; subst. apply get_score_raise in G. destruct G as (msg & -> & X).
    exists 0%nat, msg. split; [reflexivity|]. split.
    + exists a0. split; [reflexivity|]. now rewrite Nat.add_0_r.
    + intros m b Lt. lia.
Qed.

(** [submit] either finds every call answered, grades every entry and
    completes the quiz with the mean of the scores, or is stopped by the first
    call that fails, with the entry recorded and nothing else changed. *)
Lemma submit_result (i : run_input) (q a r : string) (s : session_state) (o : list ui) :
  let log := answers s ++ [mk_answer q a r] in
  let s1 := set_answers log s in
  (all_answered i log
   /\ exists o',
        submit i q a r (s, o)
        = (Rerun,
           (set_quiz_completed true
              (set_total_score (mean (graded (response_text i) 0 log)) s1), o')))
  \/ (exists n msg o',
        first_failure i log n msg
        /\ submit i q a r (s, o) = (Raise (LLMError msg), (s1, o'))).
Proof.
  intros log s1. unfold submit, bind, get, modify. simpl. fold log. fold s1.
  pose proof (for_answers_state i log 0 [] (s1, o)) as S.
  destruct (for_answers i 0 log [] (s1, o)) as [[scores | | e] [s2 o2]] eqn:F;
    simpl in S; subst s2.
  - destruct (for_answers_return i log _ _ _ _ _ F) as [-> A]. simpl in A.
    rewrite average_score_nonempty by apply graded_snoc_nonempty.
    simpl. unfold log_quiz_results.
    destruct (insert_quiz_results i _ _ _ _); simpl; left; (split; [exact A|]);
      eexists; reflexivity.
  - now apply for_answers_not_rerun in F.
  - destruct (for_answers_raise i log _ _ _ _ _ F) as (n & msg & -> & X & B).
    simpl in X, B. right. exists n, msg, o2. split; [split; assumption | reflexivity].
Qed.

Lemma display_questions_cases (i : run_input) (s : session_state) (o : list ui) :
  well_formed s = true ->
  (exists o', display_questions i (s, o) = (Return tt, (s, o')))
  \/ (exists o', in_progress s = true /\ st_button i Previous = true
                 /\ 0 < current_question_index s
                 /\ display_questions i (s, o)
                    = (Rerun,
                       (set_current_question_index (current_question_index s - 1) s, o')))
  \/ (exists q o', in_progress s = true
                   /\ getitem (questions s) (current_question_index s) = Some q
                   /\ st_button i Next = true
                   /\ current_question_index s < len (questions s) - 1
                   /\ strip (text_area i) <> ""
                   /\ display_questions i (s, o)
                      = (Rerun,
                         (set_current_question_index (current_question_index s + 1)
                            (set_answers (answers s ++ [entry_of i q]) s), o')))
  \/ (exists q o', in_progress s = true
                   /\ getitem (questions s) (current_question_index s) = Some q
                   /\ st_button i Submit = true
                   /\ current_question_index s = len (questions s) - 1
                   /\ strip (text_area i) <> ""
                   /\ display_questions i (s, o)
                      = submit i (question_text q)
                          (st_radio i (option_a q) (option_b q) (option_c q) (option_d q))
                          (text_area i) (s, o')).
Proof.
  intros W.
  destruct (in_progress s) eqn:P;
    [|left; rewrite display_questions_hidden by exact P; now exists o].
  pose proof (in_progress_cursor s W P) as C.
  destruct (getitem_some (questions s) _ C) as [q G].
  assert (E0 : display_questions i (s, o)
               = navigation_buttons i (question_text q)
                   (st_radio i (option_a q) (option_b q) (option_c q) (option_d q))
                   (text_area i)
                   (s, (o ++ [st_subheader_question (current_question_index s + 1)])
                         ++ [st_write (question_text q)])).
  { unfold display_questions, bind at 1, get. simpl.
    pose proof P as P'. unfold in_progress in P'. rewrite P'. simpl. rewrite G.
    unfold bind at 1. simpl. unfold bind at 1. simpl. unfold bind at 1. simpl.
    reflexivity. }
  rewrite E0, navigation_buttons_cases. fold (entry_of i q).
  destruct (current_question_index s >? 0) eqn:C0; rewrite Z.gtb_ltb in C0; simpl.
  - destruct (st_button i Previous) eqn:B1; simpl.
    { right. left. eexists. apply Z.ltb_lt in C0. repeat split; auto. }
    destruct (current_question_index s <? len (questions s) - 1) eqn:L.
    + apply Z.ltb_lt in L. destruct (st_button i Next) eqn:B2; [|left; now eexists].
      destruct (truthy_str (strip (text_area i))) eqn:R; [|left; now eexists].
      apply truthy_str_nonempty in R.
      right. right. left. exists q. eexists. repeat split; auto.
    + apply Z.ltb_ge in L. destruct (st_button i Submit) eqn:B3; [|left; now eexists].
      destruct (truthy_str (strip (text_area i))) eqn:R; [|left; now eexists].
      apply truthy_str_nonempty in R.
      right. right. right. exists q. eexists. repeat split; auto. lia.
  - destruct (current_question_index s <? len (questions s) - 1) eqn:L.
    + apply Z.ltb_lt in L. destruct (st_button i Next) eqn:B2; [|left; now eexists].
      destruct (truthy_str (strip (text_area i))) eqn:R; [|left; now eexists].
      apply truthy_str_nonempty in R.
      right. right. left. exists q. eexists. repeat split; auto.
    + apply Z.ltb_ge in L. destruct (st_button i Submit) eqn:B3; [|left; now eexists].
      destruct (truthy_str (strip (text_area i))) eqn:R; [|left; now eexists].
      apply truthy_str_nonempty in R.
      right. right. right. exists q. eexists. repeat split; auto. lia.
Qed.

Lemma end_screen_cases (i : run_input) (s : session_state) (o : list ui) :
  (exists o', end_screen i (s, o) = (Return tt, (s, o')))
  \/ (exists o', quiz_completed s = true /\ clicked i = Some Retake_Quiz
                 /\ end_screen i (s, o) = (Rerun, (retaken s, o')))
  \/ (exists o', quiz_completed s = true /\ clicked i = Some Exit
                 /\ end_screen i (s, o) = (Rerun, (initial_state, o'))).
Proof.
  unfold end_screen, bind, get. simpl.
  destruct (quiz_completed s) eqn:C; simpl; [|left; now eexists].
  destruct (st_button i Retake_Quiz) eqn:B1; simpl.
  { right. left. eexists. apply st_button_true in B1. repeat split; auto. }
  destruct (st_button i Exit) eqn:B2; simpl; [|left; now eexists].
  right. right. eexists. apply st_button_true in B2. repeat split; auto.
Qed.

(** A session that shows a question or the end screen is not touched by
    steps 1 and 2. *)
Lemma prelude_started (i : run_input) (s : session_state) :
  well_formed s = true -> proceed_to_quiz s = true -> prelude_state i s = s.
Proof.
  intros W P. pose proof (well_formed_spec s W) as (_ & _ & U & _).
  pose proof (prelude_frame i s) as F. cbv zeta in F.
  destruct F as (_ & _ & _ & _ & _ & _ & _ & K & _). now apply K; [apply U|].
Qed.

(** Steps 3 and 4 take effect on the session the execution started in: a
    question or the end screen is shown after steps 1 and 2 only if it was
    shown before, unless "Proceed" is pressed. *)
Lemma prelude_in_progress (i : run_input) (s : session_state) (b : button_label) :
  well_formed s = true -> clicked i = Some b -> b <> Proceed ->
  in_progress (prelude_state i s) = true ->
  in_progress s = true /\ prelude_state i s = s.
Proof.
  intros W B N P. pose proof (prelude_frame i s) as F. cbv zeta in F.
  destruct F as (_ & _ & _ & _ & _ & C & _ & _ & K).
  destruct (K (st_button_other i b Proceed B N)) as [Kp Kq].
  unfold in_progress in *. rewrite Kp, Kq, C in P. split; [exact P|].
  apply prelude_started; [exact W|].
  apply andb_true_iff in P. destruct P as [P _]. now apply andb_true_iff in P.
Qed.

(** Every execution on a well-formed session is one of the seven cases. *)
Lemma run_execution_case (i : run_input) (s : session_state) :
  well_formed s = true ->
  execution_case i s (fst (run i s)) (state_after i s).
Proof.
  intros W. unfold state_after. rewrite run_after_prelude.
  pose proof (prelude_frame i s) as F. cbv zeta in F.
  destruct F as (_ & W1 & _ & _ & _ & C1 & _). specialize (W1 W).
  assert (PS : snd (prelude i s) = (prelude_state i s, snd (snd (prelude i s)))).
  { unfold prelude_state. now destruct (prelude i s) as [r [s1 o1]]. }
  rewrite PS. generalize (snd (snd (prelude i s))). intros o1. clear PS.
  unfold bind.
  destruct (display_questions_cases i (prelude_state i s) o1 W1)
    as [[o' E] | [[o' (P & B & L & E)] | [(q & o' & P & G & B & L & R & E)
                                         | (q & o' & P & G & B & L & R & E)]]];
    rewrite E; clear E.
  - destruct (end_screen_cases i (prelude_state i s) o')
      as [[o2 E2] | [[o2 (C & B & E2)] | [o2 (C & B & E2)]]]; rewrite E2; simpl.
    + apply (case_shown i s).
    + assert (S : prelude_state i s = s).
      { apply prelude_started; [exact W|].
        pose proof (well_formed_spec s W) as (_ & _ & _ & Wc & _).
        rewrite C1 in C. now destruct (Wc C). }
      rewrite S in *. now apply case_retake.
    + apply case_exit; [congruence | exact B].
  - apply st_button_true in B.
    destruct (prelude_in_progress i s Previous W B) as [Ps S];
      [discriminate | exact P |].
    rewrite S in *. simpl. now apply case_previous.
  - apply st_button_true in B.
    destruct (prelude_in_progress i s Next W B) as [Ps S];
      [discriminate | exact P |].
    rewrite S in *. simpl. now apply (case_next i s q).
  - apply st_button_true in B.
    destruct (prelude_in_progress i s Submit W B) as [Ps S];
      [discriminate | exact P |].
    rewrite S in *.
    destruct (submit_result i (question_text q)
                (st_radio i (option_a q) (option_b q) (option_c q) (option_d q))
                (text_area i) s o')
      as [(A & o2 & E2) | (n & msg & o2 & X & E2)]; rewrite E2; simpl.
    + now apply (case_submit i s q).
    + now apply (case_submit_failed i s q n msg).
Qed.

(** ** Further properties: the sessions reached from the initial state *)

Lemma reachable_well_formed (l : list run_input) :
  well_formed (run_all l initial_state) = true.
Proof. apply run_all_well_formed. reflexivity. Qed.

(** X4.  In every session reached from the initial state by executions of
    [main], whatever their inputs: the cursor is not negative; it designates
    a question whenever a question is shown; a started quiz has a candidate
    name; a completed quiz is started and has questions; and before the quiz
    starts the cursor is 0 and no answer is recorded. *)
Theorem reachable_session_invariant (l : list run_input) :
  let s := run_all l initial_state in
  0 <= current_question_index s
  /\ (in_progress s = true -> current_question_index s < len (questions s))
  /\ (in_progress s = true ->
      exists q, getitem (questions s) (current_question_index s) = Some q)
  /\ (proceed_to_quiz s = true -> username s <> "")
  /\ (quiz_completed s = true -> proceed_to_quiz s = true /\ questions s <> [])
  /\ (proceed_to_quiz s = false -> current_question_index s = 0 /\ answers s = []).
Proof.
  intros s. pose proof (reachable_well_formed l) as W. fold s in W.
  pose proof (well_formed_spec s W) as (I0 & I1 & U & C & P).
  split; [exact I0|]. split; [|split; [|split; [|split]]].
  - intros Q. now apply in_progress_cursor.
  - intros Q. apply getitem_some. now apply in_progress_cursor.
  - intros Q. apply truthy_str_nonempty. now apply U.
  - intros Q. destruct (C Q) as [Cp Cq]. split; [exact Cp|].
    now destruct (questions s).
  - exact P.
Qed.

(** X5.  Whatever the input, an execution of [main] on a session reached
    from the initial state ends in one of seven ways, each leaving one
    determined session: it only shows a screen (steps 1 and 2 may record the
    name, the selected quiz and the start of the quiz); or "Retake Quiz" or
    "Exit" takes effect on the end screen; or "Previous" or "Next" takes
    effect on a question; or "Submit" does, the model having answered the
    call of every entry and the total score being the mean of the scores of
    its responses; or "Submit" is stopped by the first call to the model that
    fails, its entry recorded. *)
Theorem execution_cases (l : list run_input) (i : run_input) :
  let s := run_all l initial_state in
  execution_case i s (fst (run i s)) (state_after i s).
Proof. intros s. apply run_execution_case. apply reachable_well_formed. Qed.

(** X6.  An execution on a session reached from the initial state never
    ends with an [IndexError] (the cursor is always a valid position), a
    [KeyError] (the selected title is always a key of the dictionary) or a
    [ZeroDivisionError]; the only exception that stops an execution is a
    failure of a call to the model, and it happens under "Submit" only. *)
Theorem only_the_model_raises (l : list run_input) (i : run_input) :
  let s := run_all l initial_state in
  fst (run i s) <> Raise IndexError
  /\ fst (run i s) <> Raise KeyError
  /\ fst (run i s) <> Raise ZeroDivisionError
  /\ forall e, fst (run i s) = Raise e ->
               clicked i = Some Submit /\ exists msg, e = LLMError msg.
Proof.
  intros s.
  pose proof (run_execution_case i s (reachable_well_formed l)) as C. fold s in C.
  split; [|split; [|split]]; try (intros E; rewrite E in C; now inversion C).
  intros e E. rewrite E in C. inversion C; subst.
  split; [assumption | now exists msg].
Qed.

(** X7.  The recorded answers are only ever extended or cleared: after an
    execution on a session reached from the initial state they are the
    answers recorded before, or these followed by one entry for the question
    under the cursor, or, from the end screen only, no answer at all. *)
Theorem answers_append_only (l : list run_input) (i : run_input) :
  let s := run_all l initial_state in
  answers (state_after i s) = answers s
  \/ (exists q, in_progress s = true
                /\ getitem (questions s) (current_question_index s) = Some q
                /\ answers (state_after i s) = answers s ++ [entry_of i q])
  \/ (quiz_completed s = true /\ answers (state_after i s) = []).
Proof.
  intros s.
  pose proof (run_execution_case i s (reachable_well_formed l)) as C. fold s in C.
  pose proof (prelude_frame i s) as F. cbv zeta in F.
  destruct F as (_ & _ & _ & _ & A & _).
  inversion C.
  - left. congruence.
  - right. right. now split.
  - right. right. now split.
  - now left.
  - right. left. exists q. now repeat split.
  - right. left. exists q. now repeat split.
  - right. left. exists q. now repeat split.
Qed.

(** X8.  A session reached from the initial state shows exactly one of five
    things: the name entry, the quiz selection, a question, the end screen,
    or nothing (a started quiz without questions). *)
Theorem one_screen_at_a_time (l : list run_input) :
  let s := run_all l initial_state in
  length (filter (fun b : bool => b)
            [awaiting_name s; awaiting_quiz_selection s; in_progress s;
             completed s; blocked s]) = 1%nat.
Proof.
  intros s. pose proof (reachable_well_formed l) as W. fold s in W.
  pose proof (well_formed_spec s W) as (_ & _ & U & C & _).
  unfold awaiting_name, awaiting_quiz_selection, in_progress, completed, blocked.
  destruct (proceed_to_quiz s).
  - rewrite (U eq_refl). simpl.
    destruct (quiz_completed s).
    + destruct (C eq_refl) as [_ Q]. rewrite Q. reflexivity.
    + now destruct (truthy_list (questions s)).
  - destruct (quiz_completed s); [now destruct (C eq_refl)|].
    now destruct (truthy_str (username s)).
Qed.

(** ** Further properties: what the buttons can and cannot do *)

(** X9.  A quiz becomes completed in one way only: "Submit" pressed on the
    last question with a rationale, the model having answered the grading
    call of every recorded entry (the answers recorded before and the entry
    of the last question, call number [n] for entry number [n]).  The session
    then holds these answers, and as total score the mean of the scores read
    from the responses to these calls, in the order of the entries. *)
Theorem completed_only_by_submit (i : run_input) (s : session_state) :
  well_formed s = true ->
  quiz_completed s = false -> quiz_completed (state_after i s) = true ->
  clicked i = Some Submit
  /\ in_progress s = true
  /\ current_question_index s = len (questions s) - 1
  /\ strip (text_area i) <> ""
  /\ fst (run i s) = Rerun
  /\ exists q,
       getitem (questions s) (current_question_index s) = Some q
       /\ (forall n a,
             nth_error (answers s ++ [entry_of i q]) n = Some a ->
             exists t,
               llm_complete i n (prompt_of_answer a) = Ok t
               /\ nth_error (graded (response_text i) 0 (answers s ++ [entry_of i q])) n
                  = Some (score_of_response t))
       /\ state_after i s
          = set_quiz_completed true
              (set_total_score
                 (mean (graded (response_text i) 0 (answers s ++ [entry_of i q])))
                 (set_answers (answers s ++ [entry_of i q]) s)).
Proof.
  intros W C0 C1.
  pose proof (run_execution_case i s W) as C.
  pose proof (prelude_frame i s) as F. cbv zeta in F.
  destruct F as (_ & _ & _ & _ & _ & Fc & _).
  remember (state_after i s) as s' eqn:Es. remember (fst (run i s)) as r eqn:Er.
  clear Es Er.
  destruct C as [ | | | | q | q P G B L R A | q n msg]; simpl in C1; try congruence.
  repeat split; try assumption. exists q. split; [exact G|]. split; [|reflexivity].
  intros n a E. destruct (A n a E) as [t T]. exists t. split; [exact T|].
  rewrite (graded_nth (response_text i) _ 0 n a E). simpl.
  unfold response_text. now rewrite T.
Qed.

(** X10.  Once a quiz is started, no execution changes the candidate name,
    the selected quiz or the stored questions, except "Exit" on the end
    screen, which puts the session back in the initial state. *)
Theorem started_session_keeps_quiz (i : run_input) (s : session_state) :
  well_formed s = true -> proceed_to_quiz s = true ->
  (username (state_after i s) = username s
   /\ selected_quiz (state_after i s) = selected_quiz s
   /\ questions (state_after i s) = questions s)
  \/ (quiz_completed s = true /\ clicked i = Some Exit
      /\ state_after i s = initial_state).
Proof.
  intros W P.
  pose proof (run_execution_case i s W) as C.
  pose proof (prelude_started i s W P) as S.
  remember (state_after i s) as s' eqn:Es. clear Es.
  remember (fst (run i s)) as r eqn:Er. clear Er.
  destruct C; try (left; try rewrite S; now repeat split).
  right. now repeat split.
Qed.

(** X11.  An execution in which no button is pressed (any other widget was
    used) leaves a started session exactly as it was, and runs to its end. *)
Theorem no_button_no_change (i : run_input) (s : session_state) :
  well_formed s = true -> proceed_to_quiz s = true -> clicked i = None ->
  fst (run i s) = Return tt /\ state_after i s = s.
Proof.
  intros W P B.
  pose proof (run_execution_case i s W) as C.
  pose proof (prelude_started i s W P) as S.
  remember (state_after i s) as s' eqn:Es. clear Es.
  remember (fst (run i s)) as r eqn:Er. clear Er.
  destruct C; try congruence. now split.
Qed.

(** X12.  "Exit" on the end screen puts the session back in the initial
    state: the next execution asks for the name again. *)
Theorem exit_resets_session (i : run_input) (s : session_state) :
  well_formed s = true -> completed s = true -> clicked i = Some Exit ->
  run i s
  = (Rerun,
     (initial_state,
      [st_title "Quiz App";
       st_success "Quiz completed! Thank you for participating.";
       st_write_average (total_score s)]))
  /\ awaiting_name (state_after i s) = true.
Proof.
  intros W C B.
  assert (E : run i s
              = (Rerun,
                 (initial_state,
                  [st_title "Quiz App";
                   st_success "Quiz completed! Thank you for participating.";
                   st_write_average (total_score s)]))).
  { rewrite (run_completed i s W C). unfold end_screen, bind, get. simpl.
    unfold completed in C. rewrite C. simpl.
    rewrite (st_button_other i Exit Retake_Quiz B) by discriminate. simpl.
    now rewrite (st_button_clicked i Exit Exit B). }
  split; [exact E|]. unfold state_after. now rewrite E.
Qed.

(** ** Further properties: the name and the catalogue *)

Lemma extends_ret {A : Type} (a : A) : extends (ret a).
Proof. intros w. exists []. simpl. now rewrite app_nil_r. Qed.

Lemma extends_raise {A : Type} (e : exn) : extends (@raise A e).
Proof. intros w. exists []. simpl. now rewrite app_nil_r. Qed.

Lemma extends_rerun {A : Type} : extends (@st_rerun A).
Proof. intros w. exists []. simpl. now rewrite app_nil_r. Qed.

Lemma extends_get : extends get.
Proof. intros w. exists []. simpl. now rewrite app_nil_r. Qed.

Lemma extends_modify (f : session_state -> session_state) : extends (modify f).
Proof. intros w. exists []. simpl. now rewrite app_nil_r. Qed.

Lemma extends_emit (u : ui) : extends (emit u).
Proof. intros w. now exists [u]. Qed.

Lemma extends_bind {A B : Type} (m : Script A) (f : A -> Script B) :
  extends m -> (forall a, extends (f a)) -> extends (bind m f).
Proof.
  intros Hm Hf w. unfold bind. destruct (Hm w) as [o1 E1].
  destruct (m w) as [[a | | e] w']; simpl in *.
  - destruct (Hf a w') as [o2 E2]. exists (o1 ++ o2). now rewrite E2, E1, app_assoc.
  - now exists o1.
  - now exists o1.
Qed.

Lemma extends_when (b : bool) (m : Script unit) : extends m -> extends (when b m).
Proof. intros Hm. destruct b; simpl; [exact Hm | apply extends_ret]. Qed.

Lemma extends_if {A : Type} (b : bool) (m1 m2 : Script A) :
  extends m1 -> extends m2 -> extends (if b then m1 else m2).
Proof. now destruct b. Qed.

Lemma extends_of_option {A : Type} (e : exn) (o : option A) : extends (of_option e o).
Proof. destruct o; [apply extends_ret | apply extends_raise]. Qed.

Lemma extends_of_result {A : Type} (r : exn + A) : extends (of_result r).
Proof. destruct r; [apply extends_raise | apply extends_ret]. Qed.

Ltac extends_step :=
  first [ apply extends_bind; [|intros ?] | apply extends_when | apply extends_if
        | apply extends_ret | apply extends_raise | apply extends_rerun
        | apply extends_get | apply extends_modify | apply extends_emit
        | apply extends_of_option | apply extends_of_result ].

Lemma extends_get_score (i : run_input) (k : nat) (q a r : string) :
  extends (get_score_from_groq i k q a r).
Proof.
  unfold get_score_from_groq. destruct (llm_complete i k _); [|apply extends_raise].
  destruct (float_of_str _); repeat extends_step.
Qed.

Lemma extends_for_answers (i : run_input) (l : list answer) :
  forall k scores, extends (for_answers i k l scores).
Proof.
  induction l as [|a l IH]; intros k scores; simpl; [apply extends_ret|].
  apply extends_bind; [apply extends_get_score | intros v; apply IH].
Qed.

Lemma extends_select_quiz (i : run_input) : extends (select_quiz i).
Proof.
  unfold select_quiz, fetch_quizzes, fetch_questions.
  repeat extends_step.
  - destruct (select_quizzes i); repeat extends_step.
  - destruct (select_questions i _); repeat extends_step.
Qed.

Lemma extends_display_questions (i : run_input) : extends (display_questions i).
Proof.
  unfold display_questions, navigation_buttons, submit, log_quiz_results.
  repeat extends_step.
  - apply extends_for_answers.
  - destruct (insert_quiz_results i _ _ _ _); apply extends_emit.
Qed.

Lemma extends_end_screen (i : run_input) : extends (end_screen i).
Proof. unfold end_screen. repeat extends_step. Qed.

Lemma enter_username_new (i : run_input) (s : session_state) (o : list ui) :
  truthy_str (username s) = false -> truthy_str (text_input i) = true ->
  enter_username i (s, o)
  = (Return tt,
     (set_username (text_input i) s,
      o ++ [st_success ("Welcome, " ++ text_input i ++ "!")])).
Proof.
  intros A T. unfold enter_username, bind, get. simpl. rewrite A. simpl.
  now rewrite T.
Qed.

(** X13.  While no name is recorded, an execution records what the name box
    holds: an empty box leaves the session as it is and shows the title
    only; a name is stored and greeted, and the page goes on below the
    greeting. *)
Theorem name_entry (i : run_input) (s : session_state) :
  well_formed s = true -> awaiting_name s = true ->
  (text_input i = "" -> run i s = (Return tt, (s, [st_title "Quiz App"])))
  /\ (text_input i <> "" ->
      username (state_after i s) = text_input i
      /\ exists o',
           page_after i s
           = [st_title "Quiz App";
              st_success ("Welcome, " ++ text_input i ++ "!")] ++ o').
Proof.
  intros W A. unfold awaiting_name in A. apply negb_true_iff in A.
  pose proof (well_formed_spec s W) as (_ & _ & U & C & _).
  assert (P : proceed_to_quiz s = false).
  { destruct (proceed_to_quiz s); [|reflexivity]. specialize (U eq_refl). congruence. }
  assert (Q : quiz_completed s = false).
  { destruct (quiz_completed s); [|reflexivity]. destruct (C eq_refl). congruence. }
  split.
  - intros T. unfold run, main. unfold bind at 1. simpl. unfold bind at 1.
    unfold enter_username, bind at 1, get. simpl. rewrite A. simpl.
    unfold bind at 1. simpl. rewrite T. simpl.
    assert (E : set_username "" s = s).
    { destruct s as [u ? ? ? ? ? ? ?]. simpl in A.
      destruct u; [reflexivity | discriminate]. }
    rewrite E. unfold bind at 1, select_quiz, bind at 1, get. simpl. rewrite A. simpl.
    unfold bind at 1. rewrite display_questions_hidden
      by (unfold in_progress; now rewrite P).
    now rewrite end_screen_not_completed.
  - intros T. apply truthy_str_nonempty in T.
    pose proof (prelude_frame i s) as F. cbv zeta in F.
    destruct F as (_ & _ & Fu & _). rewrite A in Fu.
    split.
    + pose proof (run_execution_case i s W) as K.
      remember (state_after i s) as s' eqn:Es. clear Es.
      remember (fst (run i s)) as r eqn:Er. clear Er.
      destruct K; try congruence; unfold in_progress in *; rewrite P in *;
        discriminate.
    + unfold page_after, run, main. unfold bind at 1. simpl. unfold bind at 1.
      rewrite (enter_username_new i s _ A T).
      match goal with |- context [bind (select_quiz i) ?k ?w] =>
        assert (X : extends (bind (select_quiz i) k)) end.
      { apply extends_bind; [apply extends_select_quiz | intros _].
        apply extends_bind; [apply extends_display_questions | intros _].
        apply extends_end_screen. }
      match goal with |- context [bind (select_quiz i) ?k ?w] =>
        destruct (X w) as [o' E] end.
      exists o'. exact E.
Qed.

(** X14.  On the quiz selection screen, when the catalogue is empty or the
    query for it fails, the execution warns that no quiz is available (after
    the error of the query, if any) and leaves the session as it is, whatever
    button the input names: the selection can be tried again. *)
Theorem empty_catalogue_keeps_selection (i : run_input) (s : session_state) :
  well_formed s = true -> awaiting_quiz_selection s = true ->
  (forall quizzes, select_quizzes i = Ok quizzes -> quizzes = []) ->
  run i s
  = (Return tt,
     (s,
      st_title "Quiz App"
      :: match select_quizzes i with
         | Ok _ => []
         | Exc e => [st_error ("Error fetching quizzes: " ++ e)]
         end
      ++ [st_warning "No quizzes available."])).
Proof.
  intros W A Q. unfold awaiting_quiz_selection in A. pose proof A as A'.
  apply andb_true_iff in A'. destruct A' as [U P]. apply negb_true_iff in P.
  pose proof (well_formed_spec s W) as (_ & _ & _ & C & _).
  assert (Qc : quiz_completed s = false).
  { destruct (quiz_completed s); [|reflexivity]. destruct (C eq_refl). congruence. }
  unfold run, main. unfold bind at 1. simpl.
  unfold bind at 1. rewrite enter_username_named by exact U.
  unfold bind at 1.
  assert (E : select_quiz i (s, [st_title "Quiz App"])
              = (Return tt,
                 (s,
                  st_title "Quiz App"
                  :: match select_quizzes i with
                     | Ok _ => []
                     | Exc e => [st_error ("Error fetching quizzes: " ++ e)]
                     end
                  ++ [st_warning "No quizzes available."]))).
  { unfold select_quiz, bind at 1, get. simpl. rewrite A. simpl.
    unfold bind at 1, fetch_quizzes.
    destruct (select_quizzes i) as [quizzes | e]; simpl.
    - now rewrite (Q quizzes eq_refl).
    - reflexivity. }
  rewrite E. unfold bind at 1.
  rewrite display_questions_hidden by (unfold in_progress; now rewrite P).
  now rewrite end_screen_not_completed.
Qed.

Lemma run_proceed_at (i : run_input) (s : session_state)
    (quizzes : list (Z * string)) (id : Z) :
  well_formed s = true -> awaiting_quiz_selection s = true ->
  select_quizzes i = Ok quizzes -> quizzes <> [] ->
  clicked i = Some Proceed ->
  match st_selectbox i (dict_keys (quiz_options_of quizzes)) with
  | Some title => dict_get (quiz_options_of quizzes) title
  | None => None
  end = Some id ->
  state_after i s
  = mk_state (username s) (Some id) (fetched i (Some id)) 0 [] false
             (total_score s) true.
Proof.
  intros W A Q N B E.
  unfold awaiting_quiz_selection in A. apply andb_true_iff in A.
  destruct A as [U P]. apply negb_true_iff in P.
  pose proof (well_formed_spec s W) as (_ & _ & _ & Wc & Wp).
  assert (C : quiz_completed s = false).
  { destruct (quiz_completed s); [|reflexivity]. destruct Wc; congruence. }
  destruct (Wp P) as [I0 A0].
  unfold state_after, run, main.
  unfold bind at 1. simpl. unfold bind at 1. rewrite enter_username_named by exact U.
  unfold bind at 1.
  rewrite (select_quiz_proceed i s _ quizzes id U P Q N B E). unfold bind at 1.
  match goal with |- context [display_questions i (?s1, ?o1)] =>
    pose proof (display_questions_idle i s1 o1) as D;
    destruct (display_questions i (s1, o1)) as [[[] | | e] [s2 o2]] end;
    simpl in D; rewrite !(st_button_clicked i Proceed) in D by exact B;
    specialize (D eq_refl eq_refl eq_refl); subst s2; simpl;
    try rewrite end_screen_not_completed by exact C; simpl;
    destruct s; simpl in *; subst; reflexivity.
Qed.

(** X15.  "Proceed" on the quiz selection screen, when the catalogue is not
    empty, starts the quiz whose title the selection box designates: the
    stored identifier is that of a quiz of the catalogue with this title, the
    stored questions are those the database returns for this identifier at
    that moment, the cursor is 0 and no answer is recorded. *)
Theorem proceed_starts_selected_quiz (i : run_input) (s : session_state)
    (quizzes : list (Z * string)) :
  well_formed s = true -> awaiting_quiz_selection s = true ->
  select_quizzes i = Ok quizzes -> quizzes <> [] ->
  clicked i = Some Proceed ->
  exists title id,
    st_selectbox i (dict_keys (quiz_options_of quizzes)) = Some title
    /\ In (id, title) quizzes
    /\ state_after i s
       = mk_state (username s) (Some id) (fetched i (Some id)) 0 [] false
                  (total_score s) true.
Proof.
  intros W A Q N B.
  destruct (selected_quiz_found i quizzes N) as [id E].
  destruct (st_selectbox i (dict_keys (quiz_options_of quizzes))) as [title|] eqn:T;
    [|discriminate].
  exists title, id. split; [reflexivity|]. split.
  - destruct (quiz_options_fold quizzes []) as (_ & _ & _ & M). simpl in M.
    destruct (M title id E) as [E' | I]; [discriminate | exact I].
  - apply (run_proceed_at i s quizzes id W A Q N B). now rewrite T.
Qed.

(** ** Further properties: grading and the forward pass *)

(** X16.  When "Submit" is pressed on the last question with a rationale
    and the call to the model fails for one of the recorded entries, the
    execution stops with that failure: the entry of the last question stays
    recorded, the quiz is not completed and the total score is not
    changed. *)
Theorem failed_grading_completes_nothing (i : run_input) (s : session_state)
    (q : question_data) (n : nat) (a : answer) (msg : string) :
  well_formed s = true -> in_progress s = true ->
  getitem (questions s) (current_question_index s) = Some q ->
  current_question_index s = len (questions s) - 1 ->
  clicked i = Some Submit ->
  strip (text_area i) <> "" ->
  nth_error (answers s ++ [entry_of i q]) n = Some a ->
  llm_complete i n (prompt_of_answer a) = Exc msg ->
  (exists msg', fst (run i s) = Raise (LLMError msg'))
  /\ state_after i s = set_answers (answers s ++ [entry_of i q]) s
  /\ quiz_completed (state_after i s) = false
  /\ total_score (state_after i s) = total_score s.
Proof.
  intros W P G C B R E X.
  assert (Pc : quiz_completed s = false).
  { unfold in_progress in P. apply andb_true_iff in P. destruct P as [_ P].
    now apply negb_true_iff in P. }
  unfold state_after. rewrite (run_in_progress i s q W P G), navigation_buttons_cases.
  rewrite !(st_button_clicked i Submit) by exact B. simpl. rewrite andb_false_r.
  assert (L : (current_question_index s <? len (questions s) - 1) = false)
    by (apply Z.ltb_ge; lia).
  rewrite L. apply truthy_str_nonempty in R. rewrite R. fold (entry_of i q).
  unfold entry_of in *.
  match goal with |- context [submit i ?x ?y ?z (s, ?o)] =>
    destruct (submit_result i x y z s o)
      as [(A & o2 & E2) | (k & m & o2 & _ & E2)]
  end; rewrite E2; simpl.
  - exfalso. destruct (A n a E) as [t T]. congruence.
  - split; [now exists m|]. now repeat split.
Qed.

Lemma skipn_nth_error {A : Type} (l : list A) :
  forall n x, nth_error l n = Some x -> skipn n l = x :: skipn (S n) l.
Proof.
  induction l as [|y l IH]; intros [|n] x E; simpl in *; try discriminate.
  - now inversion E.
  - now apply IH.
Qed.

Lemma run_next (i : run_input) (s : session_state) (q : question_data) :
  well_formed s = true -> in_progress s = true ->
  getitem (questions s) (current_question_index s) = Some q ->
  current_question_index s < len (questions s) - 1 ->
  answers_next i ->
  state_after i s
  = set_current_question_index (current_question_index s + 1)
      (set_answers (answers s ++ [entry_of i q]) s).
Proof.
  intros W P G C [B R].
  unfold state_after. rewrite (run_in_progress i s q W P G), navigation_buttons_cases.
  rewrite !(st_button_clicked i Next) by exact B. simpl. rewrite andb_false_r.
  apply Z.ltb_lt in C. rewrite C. apply truthy_str_nonempty in R. now rewrite R.
Qed.

(** X17.  Pressing "Next" with a rationale on successive questions records
    the entries of these questions in their order: from a session that shows
    a question, after [n] such executions that stay before the last question
    the cursor has moved [n] questions forward and the answers are those
    recorded before followed by the entries of the [n] questions from the
    cursor on, paired with the inputs in order. *)
Theorem next_records_in_order (l : list run_input) :
  forall s,
    well_formed s = true -> in_progress s = true ->
    Forall answers_next l ->
    current_question_index s + len l <= len (questions s) - 1 ->
    let s' := run_all l s in
    current_question_index s' = current_question_index s + len l
    /\ answers s'
       = answers s
         ++ entries_of l (skipn (Z.to_nat (current_question_index s)) (questions s))
    /\ questions s' = questions s
    /\ in_progress s' = true.
Proof.
  induction l as [|i l IH]; intros s W P F C; simpl.
  - unfold len. simpl. rewrite Z.add_0_r. unfold entries_of. simpl.
    rewrite app_nil_r. now repeat split.
  - inversion F as [|? ? Fi Fl]; subst.
    assert (Cl : len (i :: l) = len l + 1) by (unfold len; simpl length; lia).
    rewrite Cl in *.
    assert (Ll : 0 <= len l) by (unfold len; lia).
    pose proof (in_progress_cursor s W P) as I.
    destruct (getitem_some (questions s) _ I) as [q G].
    assert (N : state_after i s
                = set_current_question_index (current_question_index s + 1)
                    (set_answers (answers s ++ [entry_of i q]) s))
      by (apply run_next; auto; lia).
    pose proof (state_after_well_formed i s W) as W'. rewrite N in *.
    set (s1 := set_current_question_index (current_question_index s + 1)
                 (set_answers (answers s ++ [entry_of i q]) s)) in *.
    assert (P1 : in_progress s1 = true) by exact P.
    destruct (IH s1 W' P1 Fl) as (I1 & A1 & Q1 & R1).
    { subst s1. simpl. lia. }
    cbv zeta in *. rewrite I1, A1, Q1, R1. subst s1. simpl.
    split; [lia|]. split; [|now split].
    rewrite getitem_length in G by exact I.
    rewrite (skipn_nth_error _ _ _ G).
    replace (Z.to_nat (current_question_index s + 1))
      with (S (Z.to_nat (current_question_index s))) by lia.
    unfold entries_of. simpl. now rewrite <- app_assoc.
Qed.

End App.

(** ** The sample session *)

(** The end-to-end scenario: Alice starts the quiz, answers the first
    question ("Next"), then the second ("Submit"); the two entries are graded
    9 and 7 and the total score is 8. *)
Lemma sample_session_reached :
  run_all float_of_digits [sample_idle] initial_state = sample_selecting
  /\ run_all float_of_digits [sample_idle; sample_proceed] initial_state = sample_at_q1
  /\ run_all float_of_digits [sample_idle; sample_proceed; sample_next; sample_idle]
       initial_state = sample_at_q2
  /\ run_all float_of_digits
       [sample_idle; sample_proceed; sample_next; sample_idle; sample_submit; sample_idle]
       initial_state = sample_completed.
Proof. repeat split; vm_compute; reflexivity. Qed.

(** C1 does not hold with "Previous": with two questions, "Next", "Previous",
    "Next", "Previous", "Next" leaves a session that still shows a question
    and holds three recorded answers. *)
Lemma going_back_duplicates_entries :
  let s := run_all float_of_digits
             [sample_idle; sample_proceed;
              sample_next; sample_idle; sample_previous; sample_idle;
              sample_next; sample_idle; sample_previous; sample_idle;
              sample_next; sample_idle]
             initial_state in
  in_progress s = true
  /\ len (questions s) = 2
  /\ len (answers s) = 3
  /\ ~ len (answers s) <= len (questions s).
Proof.
  cbv zeta.
  match goal with |- in_progress ?x = _ /\ _ => set (s := x) end.
  assert (P : in_progress s = true) by (vm_compute; reflexivity).
  assert (Q : len (questions s) = 2) by (vm_compute; reflexivity).
  assert (A : len (answers s) = 3) by (vm_compute; reflexivity).
  repeat split; try assumption. rewrite Q, A. lia.
Qed.

(** C1 on the sample session, driven forward only. *)
Lemma forward_only_log_bounded_sample :
  Forall forward_only
    [sample_idle; sample_proceed; sample_next; sample_idle; sample_submit]
  /\ len (answers sample_completed) <= len (questions sample_completed).
Proof.
  assert (F : Forall forward_only
                [sample_idle; sample_proceed; sample_next; sample_idle; sample_submit]).
  { repeat constructor; try discriminate; intros k p; reflexivity. }
  split; [exact F|].
  exact (proj1 (forward_only_log_bounded float_of_digits _ 5 F)).
Defined.

(** C2 on the first question, "Next" pressed with a rationale of three
    spaces. *)
Lemma rationale_required_sample :
  (well_formed sample_at_q1 = true /\ in_progress sample_at_q1 = true)
  /\ strip (text_area sample_next_blank) = ""
  /\ run float_of_digits sample_next_blank sample_at_q1
     = (Return tt,
        (sample_at_q1,
         question_header sample_at_q1 sample_q1 ++ [missing_rationale Next])).
Proof.
  split; [split; reflexivity|]. split; [reflexivity|].
  refine (proj1 (rationale_required float_of_digits sample_next_blank sample_at_q1
                   sample_q1 Next eq_refl eq_refl eq_refl eq_refl _) eq_refl).
  left. split; reflexivity.
Defined.

(** C3 on the second question of the sample session: scores 9 and 7, total
    score 8. *)
Lemma total_score_is_mean_sample :
  (well_formed sample_at_q2 = true /\ in_progress sample_at_q2 = true)
  /\ graded float_of_digits (response_text sample_submit) 0 [sample_a1; sample_a2]
     = [9%float; 7%float]
  /\ total_score (state_after float_of_digits sample_submit sample_at_q2) = 8%float.
Proof.
  split; [split; reflexivity|].
  assert (R : strip (text_area sample_submit) <> "") by (vm_compute; discriminate).
  assert (M : model_answers sample_submit) by (intros k p; reflexivity).
  pose proof (total_score_is_mean float_of_digits sample_submit sample_at_q2 sample_q2
                eq_refl eq_refl eq_refl eq_refl eq_refl R M) as T.
  cbv zeta in T. destruct T as (_ & _ & _ & _ & _ & T).
  exact (T sample_a1 eq_refl eq_refl eq_refl eq_refl eq_refl).
Defined.

(** C4 when the model answers "excellent answer" for the first entry and "7"
    for the second: scores 0 and 7, one error on the page. *)
Lemma unparsable_response_scores_zero_sample :
  model_answers sample_submit_unparsable
  /\ for_answers float_of_digits sample_submit_unparsable 0 [sample_a1; sample_a2] []
       (sample_at_q2, [])
     = (Return [0%float; 7%float],
        (sample_at_q2,
         [st_error "Failed to parse score from Groq response: excellent answer"])).
Proof.
  assert (M : model_answers sample_submit_unparsable) by (intros k p; reflexivity).
  split; [exact M|].
  exact (proj1 (unparsable_response_scores_zero float_of_digits
                  sample_submit_unparsable [sample_a1; sample_a2] sample_at_q2 [] M)).
Defined.

(** C5 does not hold as stated: after "Retake Quiz" the session shows the
    quiz selection and no question, and the next "Proceed" stores the
    questions the database returns then, here other questions than those of
    the first attempt. *)
Lemma retake_leaves_the_questions :
  let s := state_after float_of_digits sample_retake sample_completed in
  in_progress s = false
  /\ awaiting_quiz_selection s = true
  /\ questions (state_after float_of_digits sample_proceed_changed s) = [sample_q3]
  /\ questions (state_after float_of_digits sample_proceed_changed s)
     <> questions sample_completed.
Proof. cbv zeta. repeat split; try (vm_compute; reflexivity). vm_compute. discriminate. Qed.

(** C5, as the program has it, on the completed sample session. *)
Lemma retake_returns_to_quiz_selection_sample :
  (well_formed sample_completed = true /\ completed sample_completed = true)
  /\ state_after float_of_digits sample_retake sample_completed
     = mk_state "Alice" (Some 1) [sample_q1; sample_q2] 0 [] false 0%float false
  /\ awaiting_quiz_selection
       (state_after float_of_digits sample_retake sample_completed) = true.
Proof.
  split; [split; reflexivity|].
  pose proof (retake_returns_to_quiz_selection float_of_digits sample_retake
                sample_completed eq_refl eq_refl eq_refl) as (_ & S & _ & A & _).
  split; [exact S | exact A].
Defined.

(** C6 on the sample quiz when the database returns no question: the session
    is blocked. *)
Lemma proceed_without_questions_sample :
  (well_formed sample_selecting = true
   /\ awaiting_quiz_selection sample_selecting = true)
  /\ let s' := state_after float_of_digits sample_proceed_no_question sample_selecting in
     awaiting_quiz_selection s' = false
     /\ in_progress s' = false
     /\ forall i', run float_of_digits i' s' = (Return tt, (s', [st_title "Quiz App"])).
Proof.
  split; [split; reflexivity|].
  assert (N : [(1, "General Knowledge")] <> (@nil (Z * string))) by discriminate.
  pose proof (proceed_without_questions_blocks_session float_of_digits
                sample_proceed_no_question sample_selecting
                [(1, "General Knowledge")] eq_refl eq_refl eq_refl N eq_refl
                (fun _ => eq_refl)) as (_ & _ & _ & A & P & _ & B).
  cbv zeta. split; [exact A|]. split; [exact P | exact B].
Defined.

(** C7 does not hold as stated: on the empty list the averaging of line 217
    is stopped by the [ZeroDivisionError] of the division, which is not the
    [EmptyScoreSet] of a guard, and nothing is written to the page. *)
Lemma empty_average_is_a_division_error :
  average_score [] = inl ZeroDivisionError
  /\ aggregate_outcome [] = inl (Uncaught ZeroDivisionError)
  /\ guarded_aggregate [] = inl EmptyScoreSet
  /\ aggregate_outcome [] <> guarded_aggregate []
  /\ of_result (average_score []) (initial_state, [])
     = (Raise ZeroDivisionError, (initial_state, [])).
Proof.
  split; [reflexivity|]. split; [reflexivity|]. split; [reflexivity|].
  split; [|reflexivity]. vm_compute. discriminate.
Qed.

(** C8 on the second question of the sample session. *)
Lemma previous_moves_cursor_only_sample :
  (well_formed sample_at_q2 = true /\ in_progress sample_at_q2 = true)
  /\ answers (state_after float_of_digits sample_previous sample_at_q2) = [sample_a1]
  /\ current_question_index (state_after float_of_digits sample_previous sample_at_q2)
     = 0.
Proof.
  split; [split; reflexivity|].
  pose proof (previous_moves_cursor_only float_of_digits sample_previous sample_at_q2
                eq_refl eq_refl eq_refl) as (A & D & _).
  split; [exact A|].
  destruct (D eq_refl) as [E _]. now rewrite E.
Defined.

(** C9 on the sample session when the database refuses the insertion. *)
Lemma persistence_failure_is_reported_sample :
  (well_formed sample_at_q2 = true /\ in_progress sample_at_q2 = true)
  /\ In (st_error "Error logging quiz results: connection refused")
        (page_after float_of_digits sample_submit_not_stored sample_at_q2)
  /\ completed (state_after float_of_digits sample_submit_not_stored sample_at_q2) = true
  /\ total_score (state_after float_of_digits sample_submit_not_stored sample_at_q2)
     = 8%float.
Proof.
  split; [split; reflexivity|].
  assert (R : strip (text_area sample_submit_not_stored) <> "")
    by (vm_compute; discriminate).
  assert (M : model_answers sample_submit_not_stored) by (intros k p; reflexivity).
  pose proof (persistence_failure_is_reported float_of_digits sample_submit_not_stored
                sample_at_q2 sample_q2 "connection refused"
                eq_refl eq_refl eq_refl eq_refl eq_refl R M eq_refl)
    as (_ & I & C & T & _).
  split; [exact I|]. split; [exact C | exact T].
Defined.

(** ** The further properties on the sample session *)

(** X3 on a catalogue where two quizzes are titled "General Knowledge": the
    title designates the second. *)
Lemma quiz_options_last_wins_sample :
  ~ In "General Knowledge" (map snd [(3, "History")])
  /\ dict_get (quiz_options_of
                 [(1, "General Knowledge"); (2, "General Knowledge"); (3, "History")])
       "General Knowledge" = Some 2.
Proof.
  assert (N : ~ In "General Knowledge" (map snd [(3, "History")])).
  { simpl. intros [H | []]. discriminate. }
  split; [exact N|].
  exact (quiz_options_last_wins [(1, "General Knowledge")] [(3, "History")] 2
           "General Knowledge" N).
Defined.

(** X9 on the sample session: the quiz is completed by "Submit" on the
    second question. *)
Lemma completed_only_by_submit_sample :
  (well_formed sample_at_q2 = true /\ quiz_completed sample_at_q2 = false
   /\ quiz_completed (state_after float_of_digits sample_submit sample_at_q2) = true)
  /\ clicked sample_submit = Some Submit
  /\ current_question_index sample_at_q2 = len (questions sample_at_q2) - 1.
Proof.
  split; [repeat split; reflexivity|].
  pose proof (completed_only_by_submit float_of_digits sample_submit sample_at_q2
                eq_refl eq_refl eq_refl) as (B & _ & C & _).
  split; [exact B | exact C].
Defined.

(** X10 on the first question of the sample session, "Next" pressed. *)
Lemma started_session_keeps_quiz_sample :
  (well_formed sample_at_q1 = true /\ proceed_to_quiz sample_at_q1 = true)
  /\ ((username (state_after float_of_digits sample_next sample_at_q1) = "Alice"
       /\ selected_quiz (state_after float_of_digits sample_next sample_at_q1) = Some 1
       /\ questions (state_after float_of_digits sample_next sample_at_q1)
          = [sample_q1; sample_q2])
      \/ (quiz_completed sample_at_q1 = true /\ clicked sample_next = Some Exit
          /\ state_after float_of_digits sample_next sample_at_q1 = initial_state)).
Proof.
  split; [split; reflexivity|].
  exact (started_session_keeps_quiz float_of_digits sample_next sample_at_q1
           eq_refl eq_refl).
Defined.

(** X11 on the second question of the sample session. *)
Lemma no_button_no_change_sample :
  (well_formed sample_at_q2 = true /\ clicked sample_idle = None)
  /\ fst (run float_of_digits sample_idle sample_at_q2) = Return tt
  /\ state_after float_of_digits sample_idle sample_at_q2 = sample_at_q2.
Proof.
  split; [split; reflexivity|].
  exact (no_button_no_change float_of_digits sample_idle sample_at_q2
           eq_refl eq_refl eq_refl).
Defined.

(** X12 on the completed sample session. *)
Lemma exit_resets_session_sample :
  (well_formed sample_completed = true /\ completed sample_completed = true)
  /\ state_after float_of_digits sample_exit sample_completed = initial_state
  /\ awaiting_name (state_after float_of_digits sample_exit sample_completed) = true.
Proof.
  split; [split; reflexivity|].
  pose proof (exit_resets_session float_of_digits sample_exit sample_completed
                eq_refl eq_refl eq_refl) as [E A].
  split; [|exact A]. unfold state_after. now rewrite E.
Defined.

(** X13 in the initial state, the name box holding "Alice". *)
Lemma name_entry_sample :
  (well_formed initial_state = true /\ awaiting_name initial_state = true)
  /\ username (state_after float_of_digits sample_idle initial_state) = "Alice".
Proof.
  split; [split; reflexivity|].
  assert (T : text_input sample_idle <> "") by discriminate.
  exact (proj1 (proj2 (name_entry float_of_digits sample_idle initial_state
                         eq_refl eq_refl) T)).
Defined.

(** X14 on the selection screen while the query for the catalogue fails. *)
Lemma empty_catalogue_keeps_selection_sample :
  (well_formed sample_selecting = true
   /\ awaiting_quiz_selection sample_selecting = true)
  /\ run float_of_digits sample_no_catalogue sample_selecting
     = (Return tt,
        (sample_selecting,
         [st_title "Quiz App"; st_error "Error fetching quizzes: timeout";
          st_warning "No quizzes available."])).
Proof.
  split; [split; reflexivity|].
  assert (Q : forall quizzes,
             select_quizzes sample_no_catalogue = Ok quizzes -> quizzes = [])
    by (intros quizzes H; discriminate H).
  exact (empty_catalogue_keeps_selection float_of_digits sample_no_catalogue
           sample_selecting eq_refl eq_refl Q).
Defined.

(** X15 on the selection screen of the sample session. *)
Lemma proceed_starts_selected_quiz_sample :
  (well_formed sample_selecting = true
   /\ awaiting_quiz_selection sample_selecting = true)
  /\ exists title id,
       st_selectbox sample_proceed
         (dict_keys (quiz_options_of [(1, "General Knowledge")])) = Some title
       /\ In (id, title) [(1, "General Knowledge")]
       /\ state_after float_of_digits sample_proceed sample_selecting
          = mk_state "Alice" (Some id) (fetched sample_proceed (Some id)) 0 [] false
                     0%float true.
Proof.
  split; [split; reflexivity|].
  assert (N : [(1, "General Knowledge")] <> (@nil (Z * string))) by discriminate.
  exact (proceed_starts_selected_quiz float_of_digits sample_proceed sample_selecting
           [(1, "General Knowledge")] eq_refl eq_refl eq_refl N eq_refl).
Defined.

(** X16 on the second question of the sample session while the second call
    to the model fails. *)
Lemma failed_grading_completes_nothing_sample :
  (well_formed sample_at_q2 = true
   /\ llm_complete sample_submit_model_down 1 (prompt_of_answer sample_a2)
      = Exc "rate limit")
  /\ state_after float_of_digits sample_submit_model_down sample_at_q2
     = set_answers [sample_a1; sample_a2] sample_at_q2
  /\ quiz_completed (state_after float_of_digits sample_submit_model_down sample_at_q2)
     = false.
Proof.
  split; [split; reflexivity|].
  assert (R : strip (text_area sample_submit_model_down) <> "")
    by (vm_compute; discriminate).
  pose proof (failed_grading_completes_nothing float_of_digits
                sample_submit_model_down sample_at_q2 sample_q2 1 sample_a2
                "rate limit" eq_refl eq_refl eq_refl eq_refl eq_refl R eq_refl eq_refl)
    as (_ & S & C & _).
  split; [exact S | exact C].
Defined.

(** X17 on the first question of the sample session, "Next" pressed once. *)
Lemma next_records_in_order_sample :
  (well_formed sample_at_q1 = true /\ Forall answers_next [sample_next])
  /\ answers (run_all float_of_digits [sample_next] sample_at_q1) = [sample_a1]
  /\ current_question_index (run_all float_of_digits [sample_next] sample_at_q1) = 1.
Proof.
  assert (F : Forall answers_next [sample_next]).
  { repeat constructor. vm_compute. discriminate. }
  split; [split; [reflexivity | exact F]|].
  assert (C : current_question_index sample_at_q1 + len [sample_next]
              <= len (questions sample_at_q1) - 1) by (vm_compute; discriminate).
  pose proof (next_records_in_order float_of_digits [sample_next] sample_at_q1
                eq_refl eq_refl F C) as (I & A & _).
  split; [exact A | exact I].
Defined.
